(** * Orchestration layer of agentic-framework: a shallow embedding

    Embeds [a2a_protocol/agent_registry.py], [a2a_protocol/communication.py],
    [orchestration/router.py] and [orchestration/conversation_manager.py].
    Python dicts are insertion-ordered association lists ([PyDict]); the
    coroutines run sequentially, so [await] is ordinary sequencing; effects
    (delivery attempts, printed lines, raised exceptions) go through a small
    state-and-exception monad [M]. *)

From Stdlib Require Import String Ascii List Bool Arith ZArith Lia.
Import ListNotations.
Open Scope list_scope.
Open Scope string_scope.

(** ** Python dicts *)

Module PyDict.
Section Dict.
Context {V : Type}.

(** A dict is its list of items in insertion order. *)
Definition t := list (string * V).

(** [d.get(k)] *)
Fixpoint get (d : t) (k : string) : option V :=
  match d with
  | [] => None
  | (k', v) :: d' => if String.eqb k k' then Some v else get d' k
  end.

Definition mem (k : string) (d : t) : bool :=
  match get d k with Some _ => true | None => false end.

(** [d[k] = v]: an existing key keeps its position, a new key is appended. *)
Fixpoint setitem (d : t) (k : string) (v : V) : t :=
  match d with
  | [] => [(k, v)]
  | (k', v') :: d' =>
      if String.eqb k k' then (k', v) :: d' else (k', v') :: setitem d' k v
  end.

(** [del d[k]] (the callers guard it with [k in d]) *)
Fixpoint delitem (d : t) (k : string) : t :=
  match d with
  | [] => []
  | (k', v') :: d' => if String.eqb k k' then d' else (k', v') :: delitem d' k
  end.

Definition keys (d : t) : list string := map fst d.
Definition values (d : t) : list V := map snd d.

End Dict.
Arguments t : clear implicits.
End PyDict.

(** ** Strings *)

(** [str.lower()] on the characters of the model (ASCII). *)
Definition lower_char (c : ascii) : ascii :=
  let n := nat_of_ascii c in
  if (65 <=? n)%nat && (n <=? 90)%nat then ascii_of_nat (n + 32)%nat else c.

Fixpoint lower (s : string) : string :=
  match s with
  | EmptyString => EmptyString
  | String c s' => String (lower_char c) (lower s')
  end.

(** Python's [sub in s]: [sub] occurs at some position of [s]. *)
Fixpoint str_in (sub s : string) : bool :=
  String.prefix sub s ||
  match s with
  | EmptyString => false
  | String _ s' => str_in sub s'
  end.

(** Python's [x in xs] on a list of strings. *)
Definition list_in (x : string) (xs : list string) : bool :=
  existsb (String.eqb x) xs.

(** Python's [all(cap in have for cap in need)]. *)
Definition all_in (need have : list string) : bool :=
  forallb (fun c => list_in c have) need.

(** ** [a2a_protocol/agent_registry.py] *)

Record AgentCard := mkAgentCard {
  agent_id : string;
  name : string;
  description : string;
  capabilities : list string;
  endpoints : list (string * string);
  authentication : list (string * string);
  metadata : list (string * string)
}.

Module AgentRegistry.

(** [self.agents: Dict[str, AgentCard]] *)
Definition t := PyDict.t AgentCard.

Definition empty : t := [].

(** [register_agent]: [self.agents[card.agent_id] = card] *)
Definition register_agent (reg : t) (card : AgentCard) : t :=
  PyDict.setitem reg (agent_id card) card.

(** [discover_agents]: cards whose capabilities contain [capability],
    in dict order. *)
Definition discover_agents (reg : t) (capability : string) : list AgentCard :=
  filter (fun a => list_in capability (capabilities a)) (PyDict.values reg).

(** [get_agent]: [self.agents.get(agent_id)] *)
Definition get_agent (reg : t) (id : string) : option AgentCard :=
  PyDict.get reg id.

(** [unregister_agent]: [if agent_id in self.agents: del self.agents[agent_id]] *)
Definition unregister_agent (reg : t) (id : string) : t :=
  if PyDict.mem id reg then PyDict.delitem reg id else reg.

End AgentRegistry.

(** ** Effects: clock, delivery attempts, printed lines, exceptions *)

(** Python exceptions raised by this code; [str(e)] is the message. *)
Inductive Exc :=
| ValueError (msg : string)
| Exception (msg : string).

Definition str_exc (e : Exc) : string :=
  match e with ValueError m => m | Exception m => m end.

(** A history entry [{"role", "content", "timestamp"}]. *)
Record Message := mkMessage {
  role : string;
  content : string;
  msg_timestamp : nat
}.

(** The task dict built by [_analyze_user_message] and read by
    [route_task] with [task.get("type", "general")] and
    [task.get("capabilities", [])]. *)
Record Task := mkTask {
  task_type : option string;
  task_message : string;
  task_user_id : string;
  task_capabilities : option (list string);
  task_context : list (string * string);
  task_conversation_history : list Message;
  task_timestamp : nat
}.

Inductive Payload :=
| PTask (t : Task)
| PStatus (s : list (string * string))
| PText (s : string).

(** An A2A message dict; [message_id] is the f-string
    [f"{from}_{to}_{timestamp}"], kept as its three parts. *)
Record Envelope := mkEnvelope {
  env_from : string;
  env_to : option string;
  env_type : string;
  env_payload : Payload;
  env_timestamp : nat;
  env_message_id : option (string * string * nat)
}.

(** The result dict of a delivery. *)
Record Response := mkResponse {
  resp_status : string;
  resp_response : string;
  resp_timestamp : nat
}.

(** [str(result)] of a response dict. *)
Definition show_response (r : Response) : string :=
  "{'status': '" ++ resp_status r ++ "', 'response': '" ++ resp_response r ++ "', ...}".

(** What the outside world sees: the clock read by [datetime.now()], every
    delivery attempted through the transport (target card and envelope), and
    the lines printed. *)
Record World := mkWorld {
  clock : nat;
  sent : list (AgentCard * Envelope);
  printed : list string
}.

Definition M (A : Type) : Type := World -> World * (Exc + A).

Definition ret {A} (a : A) : M A := fun w => (w, inr a).

Definition bind {A B} (m : M A) (k : A -> M B) : M B :=
  fun w => match m w with
           | (w', inl e) => (w', inl e)
           | (w', inr a) => k a w'
           end.

Notation "x <- m ;; k" := (bind m (fun x => k))
  (at level 61, m at next level, right associativity).
Notation "m ;;; k" := (bind m (fun _ => k))
  (at level 61, right associativity).

Definition raise {A} (e : Exc) : M A := fun w => (w, inl e).

(** [try: m except Exception as e: h(e)] *)
Definition try_except {A} (m : M A) (h : Exc -> M A) : M A :=
  fun w => match m w with
           | (w', inl e) => h e w'
           | (w', inr a) => (w', inr a)
           end.

(** [datetime.now()] *)
Definition now : M nat := fun w => (w, inr (clock w)).

(** [print(s)] *)
Definition print (s : string) : M unit :=
  fun w => (mkWorld (clock w) (sent w) (printed w ++ [s])%list, inr tt).

(** [for x in xs: body(x)] *)
Fixpoint for_each {A} (xs : list A) (body : A -> M unit) : M unit :=
  match xs with
  | [] => ret tt
  | x :: xs' => body x ;;; for_each xs' body
  end.

(** ** [a2a_protocol/communication.py] *)

Record A2AClient := mkA2AClient {
  self_agent_id : string;
  registry : AgentRegistry.t;
  status_listeners : PyDict.t bool;
  message_queue : list Envelope
}.

(** The body of [_send_message] in the source: a simulated transport that
    always answers [delivered]. *)
Definition transport_sim (card : AgentCard) (_ : Envelope) (ts : nat) : Exc + Response :=
  inr (mkResponse "delivered" ("Message delivered to " ++ agent_id card) ts).

Section A2A.

(** The transport behind [_send_message] ("implementation depends on
    transport"): it may answer or raise. *)
Variable transport : AgentCard -> Envelope -> nat -> Exc + Response.

(** [_send_message]: one delivery attempt, recorded in [sent]. *)
Definition send_message (card : AgentCard) (msg : Envelope) : M Response :=
  fun w => (mkWorld (clock w) (sent w ++ [(card, msg)])%list (printed w),
            transport card msg (clock w)).

(** The [task_delegation] message built by [delegate_task]. *)
Definition delegation_envelope (c : A2AClient) (target : string) (task : Task)
    (ts : nat) : Envelope :=
  mkEnvelope (self_agent_id c) (Some target) "task_delegation" (PTask task) ts
             (Some (self_agent_id c, target, ts)).

Definition delegate_task (c : A2AClient) (target_agent : string) (task : Task)
    : M Response :=
  match AgentRegistry.get_agent (registry c) target_agent with
  | None => raise (ValueError ("Agent " ++ target_agent ++ " not found in registry"))
  | Some target_card =>
      ts <- now ;;
      try_except (send_message target_card (delegation_envelope c target_agent task ts))
        (fun e => raise (Exception ("Failed to delegate task to " ++ target_agent
                                    ++ ": " ++ str_exc e)))
  end.

(** [_send_status_update]: a listener missing from the registry is skipped. *)
Definition send_status_update (c : A2AClient) (target_agent : string)
    (msg : Envelope) : M unit :=
  match AgentRegistry.get_agent (registry c) target_agent with
  | Some target_card => send_message target_card msg ;;; ret tt
  | None => ret tt
  end.

Definition status_envelope (c : A2AClient) (status : list (string * string))
    (ts : nat) : Envelope :=
  mkEnvelope (self_agent_id c) None "status_update" (PStatus status) ts None.

Definition broadcast_status (c : A2AClient) (status : list (string * string))
    : M unit :=
  ts <- now ;;
  let message := status_envelope c status ts in
  for_each (PyDict.keys (status_listeners c)) (fun listener_id =>
    try_except (send_status_update c listener_id message)
      (fun e => print ("Failed to send status to " ++ listener_id ++ ": " ++ str_exc e))).

End A2A.

(** ** [orchestration/router.py] *)

(** A local agent handle, duck-typed: [getattr(agent, 'capabilities', [])]
    and [agent.process_task(task)]. *)
Record LocalAgent := mkLocalAgent {
  handle_capabilities : list string;
  process_task : Task -> M string
}.

Record AgentRouter := mkAgentRouter {
  agents : PyDict.t LocalAgent;
  routing_rules : PyDict.t (list string);
  a2a_client : A2AClient
}.

(** Python truthiness of a list. *)
Definition nonempty {A} (xs : list A) : bool :=
  match xs with [] => false | _ => true end.

(** [_agent_has_capabilities] *)
Definition agent_has_capabilities (agent : LocalAgent)
    (required_capabilities : list string) : bool :=
  if negb (nonempty required_capabilities) then true
  else all_in required_capabilities (handle_capabilities agent).

(** The loop over [self.routing_rules[task_type]]. *)
Fixpoint rule_scan (ags : PyDict.t LocalAgent) (ids : list string)
    (req : list string) : option string :=
  match ids with
  | [] => None
  | agent_id :: ids' =>
      match PyDict.get ags agent_id with
      | Some agent =>
          if agent_has_capabilities agent req then Some agent_id
          else rule_scan ags ids' req
      | None => rule_scan ags ids' req
      end
  end.

(** The loop over [self.agents.items()]. *)
Fixpoint local_scan (items : PyDict.t LocalAgent) (req : list string)
    : option string :=
  match items with
  | [] => None
  | (agent_id, agent) :: items' =>
      if agent_has_capabilities agent req then Some agent_id
      else local_scan items' req
  end.

(** The loop over [required_capabilities] querying [discover_agents]. *)
Fixpoint external_scan (reg : AgentRegistry.t) (caps : list string)
    : option string :=
  match caps with
  | [] => None
  | capability :: caps' =>
      match AgentRegistry.discover_agents reg capability with
      | c :: _ => Some (agent_id c)
      | [] => external_scan reg caps'
      end
  end.

(** [_select_best_agent] *)
Definition select_best_agent (r : AgentRouter) (task_type : string)
    (required_capabilities : list string) : option string :=
  let from_rules :=
    match PyDict.get (routing_rules r) task_type with
    | Some ids => rule_scan (agents r) ids required_capabilities
    | None => None
    end in
  match from_rules with
  | Some id => Some id
  | None =>
      match local_scan (agents r) required_capabilities with
      | Some id => Some id
      | None =>
          if nonempty required_capabilities
          then external_scan (registry (a2a_client r)) required_capabilities
          else None
      end
  end.

(** Python truthiness of an [Optional[str]]: [not best_agent]. *)
Definition falsy_opt_str (o : option string) : bool :=
  match o with None => true | Some s => String.eqb s "" end.

Section Routing.

Variable transport : AgentCard -> Envelope -> nat -> Exc + Response.

(** [_execute_task_with_agent] *)
Definition execute_task_with_agent (r : AgentRouter) (agent_id : string)
    (task : Task) : M string :=
  match PyDict.get (agents r) agent_id with
  | Some agent =>
      result <- process_task agent task ;;
      ret ("Task completed by " ++ agent_id ++ ": " ++ result)
  | None =>
      result <- delegate_task transport (a2a_client r) agent_id task ;;
      ret ("Task delegated to " ++ agent_id ++ ": " ++ show_response result)
  end.

Definition task_type_of (task : Task) : string :=
  match task_type task with Some t => t | None => "general" end.

Definition required_capabilities_of (task : Task) : list string :=
  match task_capabilities task with Some cs => cs | None => [] end.

(** [route_task] *)
Definition route_task (r : AgentRouter) (task : Task) : M string :=
  let task_type := task_type_of task in
  let required_capabilities := required_capabilities_of task in
  let best_agent := select_best_agent r task_type required_capabilities in
  match best_agent with
  | Some best => if falsy_opt_str best_agent
                 then ret ("No suitable agent found for task type: " ++ task_type)
                 else try_except (execute_task_with_agent r best task)
                        (fun e => ret ("Error executing task with agent " ++ best
                                       ++ ": " ++ str_exc e))
  | None => ret ("No suitable agent found for task type: " ++ task_type)
  end.

End Routing.

(** ** [orchestration/conversation_manager.py] *)

Record ConvState := mkConvState {
  started_at : nat;
  context : list (string * string);
  preferences : list (string * string);
  last_activity : nat
}.

Record ConversationManager := mkConversationManager {
  conversation_state : PyDict.t ConvState;
  conversation_history : PyDict.t (list Message);
  active_sessions : PyDict.t bool
}.

Definition empty_manager : ConversationManager := mkConversationManager [] [] [].

(** Python's [xs[start:]] for an integer [start]. *)
Definition py_slice_from {A} (start : Z) (xs : list A) : list A :=
  let len := Z.of_nat (length xs) in
  let s := if (start <? 0)%Z then Z.max 0 (start + len) else Z.min start len in
  skipn (Z.to_nat s) xs.

(** [_initialize_conversation] *)
Definition initialize_conversation (cm : ConversationManager) (user_id : string)
    : M ConversationManager :=
  ts <- now ;;
  print ("Initialized conversation for user: " ++ user_id) ;;;
  ret (mkConversationManager
         (PyDict.setitem (conversation_state cm) user_id (mkConvState ts [] [] ts))
         (PyDict.setitem (conversation_history cm) user_id [])
         (PyDict.setitem (active_sessions cm) user_id true)).

(** [_log_message] *)
Definition log_message (cm : ConversationManager) (user_id role : string)
    (content : string) : M ConversationManager :=
  ts <- now ;;
  let hist := match PyDict.get (conversation_history cm) user_id with
              | Some h => h
              | None => []
              end in
  let message := mkMessage role content ts in
  let st := match PyDict.get (conversation_state cm) user_id with
            | Some s => PyDict.setitem (conversation_state cm) user_id
                          (mkConvState (started_at s) (context s) (preferences s) ts)
            | None => conversation_state cm
            end in
  ret (mkConversationManager st
         (PyDict.setitem (conversation_history cm) user_id (hist ++ [message])%list)
         (active_sessions cm)).

Definition research_keywords := ["search"; "find"; "research"; "look up"].
Definition planning_keywords := ["plan"; "schedule"; "organize"; "break down"].
Definition analysis_keywords := ["analyze"; "report"; "summarize"].
Definition coding_keywords := ["code"; "program"; "implement"; "develop"].

(** [any(keyword in message_lower for keyword in kws)] *)
Definition any_keyword (kws : list string) (message_lower : string) : bool :=
  existsb (fun keyword => str_in keyword message_lower) kws.

(** The if/elif chain of [_analyze_user_message]: task type and
    capabilities. *)
Definition classify (message : string) : string * list string :=
  let message_lower := lower message in
  if any_keyword research_keywords message_lower
  then ("research", ["web_search"; "data_analysis"])
  else if any_keyword planning_keywords message_lower
  then ("planning", ["task_decomposition"; "workflow_planning"])
  else if any_keyword analysis_keywords message_lower
  then ("analysis", ["data_analysis"; "report_generation"])
  else if any_keyword coding_keywords message_lower
  then ("coding", ["code_generation"; "debugging"])
  else ("general", []).

(** [_analyze_user_message] *)
Definition analyze_user_message (cm : ConversationManager) (user_id message : string)
    : M Task :=
  let '(task_type, capabilities) := classify message in
  let ctx := match PyDict.get (conversation_state cm) user_id with
             | Some s => context s
             | None => []
             end in
  let history := py_slice_from (-5) (match PyDict.get (conversation_history cm) user_id with
                                      | Some h => h
                                      | None => []
                                      end) in
  ts <- now ;;
  ret (mkTask (Some task_type) message user_id (Some capabilities) ctx history ts).

(** [process_user_input], with [self.router.route_task] given by [route]. *)
Definition process_user_input (route : Task -> M string) (cm : ConversationManager)
    (user_id message : string) : M (ConversationManager * string) :=
  cm0 <- (if PyDict.mem user_id (conversation_state cm) then ret cm
          else initialize_conversation cm user_id) ;;
  cm1 <- log_message cm0 user_id "user" message ;;
  task <- analyze_user_message cm1 user_id message ;;
  response <- route task ;;
  cm2 <- log_message cm1 user_id "assistant" response ;;
  ret (cm2, response).

(** [get_conversation_history]: [if limit: return history[-limit:]]. *)
Definition get_conversation_history (cm : ConversationManager) (user_id : string)
    (limit : option Z) : list Message :=
  let history := match PyDict.get (conversation_history cm) user_id with
                 | Some h => h
                 | None => []
                 end in
  match limit with
  | Some l => if (l =? 0)%Z then history else py_slice_from (- l) history
  | None => history
  end.

(** ** Further operations of the same files *)

(** [repr] of a dict of strings, as f-strings print it. *)
Definition show_dict (d : list (string * string)) : string :=
  "{" ++ String.concat ", " (map (fun kv => "'" ++ fst kv ++ "': '" ++ snd kv ++ "'") d)
  ++ "}".

(** [KeyError(k)] raised by [d[k]]; [str(KeyError('k'))] is ['k']. *)
Definition key_error (k : string) : Exc := Exception ("'" ++ k ++ "'").

Module RegistryMore.


(** [list_all_agents] *)
Definition list_all_agents (reg : AgentRegistry.t) : list AgentCard := PyDict.values reg.

End RegistryMore.

Module ClientMore.

(** [subscribe_to_status] *)
Definition subscribe_to_status (c : A2AClient) (id : string) : M A2AClient :=
  print ("Subscribed to status updates from " ++ id) ;;;
  ret (mkA2AClient (self_agent_id c) (registry c)
         (PyDict.setitem (status_listeners c) id true) (message_queue c)).

(** [unsubscribe_from_status] *)
Definition unsubscribe_from_status (c : A2AClient) (id : string) : M A2AClient :=
  if PyDict.mem id (status_listeners c) then
    print ("Unsubscribed from status updates from " ++ id) ;;;
    ret (mkA2AClient (self_agent_id c) (registry c)
           (PyDict.delitem (status_listeners c) id) (message_queue c))
  else ret c.

Section Direct.
Variable transport : AgentCard -> Envelope -> nat -> Exc + Response.

(** The [direct_message] built by [send_direct_message]. *)
Definition direct_envelope (c : A2AClient) (target : string) (text : string)
    (ts : nat) : Envelope :=
  mkEnvelope (self_agent_id c) (Some target) "direct_message" (PText text) ts
             (Some (self_agent_id c, target, ts)).

(** [send_direct_message] *)
Definition send_direct_message (c : A2AClient) (target_agent : string)
    (message : string) : M Response :=
  match AgentRegistry.get_agent (registry c) target_agent with
  | None => raise (ValueError ("Agent " ++ target_agent ++ " not found in registry"))
  | Some target_card =>
      ts <- now ;;
      try_except (send_message transport target_card
                    (direct_envelope c target_agent message ts))
        (fun e => raise (Exception ("Failed to send message to " ++ target_agent
                                    ++ ": " ++ str_exc e)))
  end.
End Direct.

(** [self.message_queue.put(message)]: the queue is FIFO. *)
Definition enqueue (c : A2AClient) (msg : Envelope) : A2AClient :=
  mkA2AClient (self_agent_id c) (registry c) (status_listeners c)
              (message_queue c ++ [msg])%list.

(** [receive_messages]: the head of the queue; on an empty queue the
    one-second [wait_for] times out (nothing else runs in between) and the
    result is [None]. *)
Definition receive_messages (c : A2AClient) : M (A2AClient * option Envelope) :=
  match message_queue c with
  | m :: rest => ret (mkA2AClient (self_agent_id c) (registry c) (status_listeners c) rest,
                      Some m)
  | [] => ret (c, None)
  end.

(** [_handle_task_delegation] *)
Definition handle_task_delegation (c : A2AClient) (msg : Envelope)
    : M (A2AClient * list (string * string)) :=
  ret (enqueue c msg, [("status", "accepted"); ("message", "Task delegation received")]).

(** [_handle_status_update]: reads [message['status']]. *)
Definition handle_status_update (c : A2AClient) (msg : Envelope)
    : M (A2AClient * list (string * string)) :=
  match env_payload msg with
  | PStatus s =>
      print ("Status update from " ++ env_from msg ++ ": " ++ show_dict s) ;;;
      ret (c, [("status", "received")])
  | _ => raise (key_error "status")
  end.

(** [_handle_direct_message]: reads [message['content']]. *)
Definition handle_direct_message (c : A2AClient) (msg : Envelope)
    : M (A2AClient * list (string * string)) :=
  match env_payload msg with
  | PText s =>
      print ("Direct message from " ++ env_from msg ++ ": " ++ s) ;;;
      ret (enqueue c msg, [("status", "received")])
  | _ => raise (key_error "content")
  end.

(** [handle_incoming_message] *)
Definition handle_incoming_message (c : A2AClient) (msg : Envelope)
    : M (A2AClient * list (string * string)) :=
  let message_type := env_type msg in
  if String.eqb message_type "task_delegation" then handle_task_delegation c msg
  else if String.eqb message_type "status_update" then handle_status_update c msg
  else if String.eqb message_type "direct_message" then handle_direct_message c msg
  else ret (c, [("error", "Unknown message type: " ++ message_type)]).

End ClientMore.

Module RouterMore.

(** [register_agent] (its print is not modelled, as for the registry) *)
Definition register_agent (r : AgentRouter) (id : string) (agent : LocalAgent)
    : AgentRouter :=
  mkAgentRouter (PyDict.setitem (agents r) id agent) (routing_rules r) (a2a_client r).

(** [unregister_agent] *)
Definition unregister_agent (r : AgentRouter) (id : string) : AgentRouter :=
  if PyDict.mem id (agents r)
  then mkAgentRouter (PyDict.delitem (agents r) id) (routing_rules r) (a2a_client r)
  else r.

(** [add_routing_rule] *)
Definition add_routing_rule (r : AgentRouter) (ty : string) (ids : list string)
    : AgentRouter :=
  mkAgentRouter (agents r) (PyDict.setitem (routing_rules r) ty ids) (a2a_client r).

(** [remove_routing_rule] *)
Definition remove_routing_rule (r : AgentRouter) (ty : string) : AgentRouter :=
  if PyDict.mem ty (routing_rules r)
  then mkAgentRouter (agents r) (PyDict.delitem (routing_rules r) ty) (a2a_client r)
  else r.

End RouterMore.

Module SessionMore.

(** [dict.update(patch)]: key-wise overwrite in the order of [patch]. *)
Definition py_update {V} (d patch : PyDict.t V) : PyDict.t V :=
  fold_left (fun acc kv => PyDict.setitem acc (fst kv) (snd kv)) patch d.

(** [update_conversation_context] (the context is updated in place; the
    model writes the new state back under the same key). *)
Definition update_conversation_context (cm : ConversationManager) (user_id : string)
    (context_updates : list (string * string)) : M ConversationManager :=
  match PyDict.get (conversation_state cm) user_id with
  | Some s =>
      print ("Updated context for user " ++ user_id ++ ": " ++ show_dict context_updates) ;;;
      ret (mkConversationManager
             (PyDict.setitem (conversation_state cm) user_id
                (mkConvState (started_at s) (py_update (context s) context_updates)
                             (preferences s) (last_activity s)))
             (conversation_history cm) (active_sessions cm))
  | None => ret cm
  end.

(** [set_user_preferences] *)
Definition set_user_preferences (cm : ConversationManager) (user_id : string)
    (prefs : list (string * string)) : M ConversationManager :=
  cm0 <- (if PyDict.mem user_id (conversation_state cm) then ret cm
          else initialize_conversation cm user_id) ;;
  match PyDict.get (conversation_state cm0) user_id with
  | Some s =>
      print ("Set preferences for user " ++ user_id ++ ": " ++ show_dict prefs) ;;;
      ret (mkConversationManager
             (PyDict.setitem (conversation_state cm0) user_id
                (mkConvState (started_at s) (context s) prefs (last_activity s)))
             (conversation_history cm0) (active_sessions cm0))
  | None => raise (key_error user_id)
  end.

(** [end_conversation] *)
Definition end_conversation (cm : ConversationManager) (user_id : string)
    : M ConversationManager :=
  if PyDict.mem user_id (active_sessions cm) then
    print ("Ended conversation for user: " ++ user_id) ;;;
    ret (mkConversationManager (conversation_state cm) (conversation_history cm)
           (PyDict.setitem (active_sessions cm) user_id false))
  else ret cm.

(** [_cleanup_user_data] *)
Definition cleanup_user_data (cm : ConversationManager) (user_id : string)
    : ConversationManager :=
  mkConversationManager
    (if PyDict.mem user_id (conversation_state cm)
     then PyDict.delitem (conversation_state cm) user_id else conversation_state cm)
    (if PyDict.mem user_id (conversation_history cm)
     then PyDict.delitem (conversation_history cm) user_id else conversation_history cm)
    (if PyDict.mem user_id (active_sessions cm)
     then PyDict.delitem (active_sessions cm) user_id else active_sessions cm).

(** The second loop of [cleanup_inactive_conversations]. *)
Fixpoint cleanup_users (cm : ConversationManager) (users : list string)
    : M ConversationManager :=
  match users with
  | [] => ret cm
  | u :: us =>
      let cm' := cleanup_user_data cm u in
      print ("Cleaned up inactive conversation for user: " ++ u) ;;;
      cleanup_users cm' us
  end.

(** [cleanup_inactive_conversations]: timestamps are whole seconds on the
    clock of [World]; [cutoff_time = now - hours * 3600]. *)
Definition cleanup_inactive_conversations (cm : ConversationManager) (hours : Z)
    : M ConversationManager :=
  ts <- now ;;
  let cutoff_time := (Z.of_nat ts - hours * 3600)%Z in
  let inactive_users :=
    map fst (filter (fun us => (Z.of_nat (last_activity (snd us)) <? cutoff_time)%Z)
                    (conversation_state cm)) in
  cleanup_users cm inactive_users.

(** The counts of [get_system_stats] (its [router_status] entry queries the
    handles' [get_status], which the handle model does not carry). *)
Definition total_conversations (cm : ConversationManager) : nat :=
  length (conversation_state cm).

Definition active_conversations (cm : ConversationManager) : nat :=
  length (filter (fun b => b) (PyDict.values (active_sessions cm))).

Definition total_messages (cm : ConversationManager) : nat :=
  list_sum (map (@length Message) (PyDict.values (conversation_history cm))).

End SessionMore.

(** * Properties *)

(** ** Dict lemmas *)

Module PyDictFacts.
Import PyDict.

Section Facts.
Context {V : Type}.
Implicit Types (d : PyDict.t V) (k : string) (v : V).

Lemma get_setitem_same d k v : get (setitem d k v) k = Some v.
Proof.
  induction d as [|[k' v'] d IH]; simpl.
  - now rewrite String.eqb_refl.
  - destruct (String.eqb k k') eqn:E; simpl.
    + now rewrite E.
    + now rewrite E.
Qed.

Lemma get_not_in d k : ~ In k (keys d) -> get d k = None.
Proof.
  induction d as [|[k' v'] d IH]; simpl; intros Hn; [reflexivity|].
  destruct (String.eqb k k') eqn:E.
  - apply String.eqb_eq in E; subst; tauto.
  - apply IH; tauto.
Qed.

Lemma in_keys_get d k : In k (keys d) -> exists v, get d k = Some v.
Proof.
  induction d as [|[k' v'] d IH]; simpl; [tauto|]; intros H.
  destruct (String.eqb k k') eqn:E; [eauto|].
  apply IH. destruct H as [H|H]; [|exact H].
  subst; now rewrite String.eqb_refl in E.
Qed.

Lemma mem_false_not_in d k : mem k d = false -> ~ In k (keys d).
Proof.
  unfold mem; intros Hm Hin.
  destruct (in_keys_get d k Hin) as [v Hv]; now rewrite Hv in Hm.
Qed.

Lemma keys_setitem_in d k v : In k (keys d) -> keys (setitem d k v) = keys d.
Proof.
  induction d as [|[k' v'] d IH]; simpl; [tauto|]; intros H.
  destruct (String.eqb k k') eqn:E; simpl; [reflexivity|].
  f_equal. apply IH. destruct H as [H|H]; [|exact H].
  subst; now rewrite String.eqb_refl in E.
Qed.

Lemma keys_setitem_new d k v : ~ In k (keys d) -> keys (setitem d k v) = (keys d ++ [k])%list.
Proof.
  induction d as [|[k' v'] d IH]; simpl; [reflexivity|]; intros H.
  destruct (String.eqb k k') eqn:E.
  - apply String.eqb_eq in E; subst; tauto.
  - simpl; f_equal; apply IH; tauto.
Qed.

Lemma setitem_nodup d k v : NoDup (keys d) -> NoDup (keys (setitem d k v)).
Proof.
  intros Hnd. destruct (in_dec String.string_dec k (keys d)) as [Hin|Hin].
  - now rewrite keys_setitem_in.
  - rewrite keys_setitem_new by exact Hin.
    apply NoDup_app; [exact Hnd | constructor; [simpl; tauto | constructor] |].
    intros x Hx [Hy|[]]; subst; contradiction.
Qed.

Lemma keys_delitem_incl d k x : In x (keys (delitem d k)) -> In x (keys d).
Proof.
  induction d as [|[k' v'] d IH]; simpl; [tauto|].
  destruct (String.eqb k k'); simpl; intuition.
Qed.

Lemma delitem_nodup d k : NoDup (keys d) -> NoDup (keys (delitem d k)).
Proof.
  induction d as [|[k' v'] d IH]; simpl; [tauto|]; intros Hnd.
  inversion Hnd as [|? ? Hn Hnd']; subst.
  destruct (String.eqb k k'); simpl; [exact Hnd'|].
  constructor; [|now apply IH].
  intros Hin; apply Hn, (keys_delitem_incl d k), Hin.
Qed.

Lemma get_delitem_same d k : NoDup (keys d) -> get (delitem d k) k = None.
Proof.
  induction d as [|[k' v'] d IH]; simpl; [reflexivity|]; intros Hnd.
  inversion Hnd as [|? ? Hn Hnd']; subst.
  destruct (String.eqb k k') eqn:E; simpl.
  - apply String.eqb_eq in E; subst. now apply get_not_in.
  - rewrite E. now apply IH.
Qed.

End Facts.
End PyDictFacts.

(** ** Slices *)

Lemma py_slice_from_neg {A} (n : Z) (xs : list A) :
  (0 < n)%Z -> py_slice_from (- n) xs = skipn (length xs - Z.to_nat n) xs.
Proof.
  intros Hn. unfold py_slice_from.
  replace (- n <? 0)%Z with true by (symmetry; apply Z.ltb_lt; lia).
  f_equal. lia.
Qed.

(** ** The agent registry *)

Module RegistryProps.
Import PyDictFacts.

(** Claim C8: on a registry whose ids are unique (the dict invariant),
    [register_agent] makes [get_agent] return the card (overwriting any card
    of that id, never failing, keeping ids unique), [unregister_agent] makes
    [get_agent] return [None] (also right after a registration), and
    unregistering an absent id leaves the registry as it is. *)
Theorem register_get_unregister (reg : AgentRegistry.t)
    (Hnd : NoDup (PyDict.keys reg)) :
  (forall card,
      AgentRegistry.get_agent (AgentRegistry.register_agent reg card) (agent_id card)
        = Some card
      /\ NoDup (PyDict.keys (AgentRegistry.register_agent reg card))
      /\ AgentRegistry.get_agent
           (AgentRegistry.unregister_agent (AgentRegistry.register_agent reg card)
              (agent_id card)) (agent_id card) = None)
  /\ (forall id,
      AgentRegistry.get_agent (AgentRegistry.unregister_agent reg id) id = None
      /\ NoDup (PyDict.keys (AgentRegistry.unregister_agent reg id)))
  /\ (forall id, PyDict.mem id reg = false -> AgentRegistry.unregister_agent reg id = reg).
Proof.
  assert (Hun : forall r id, NoDup (PyDict.keys r) ->
            AgentRegistry.get_agent (AgentRegistry.unregister_agent r id) id = None
            /\ NoDup (PyDict.keys (AgentRegistry.unregister_agent r id))).
  { intros r id Hr. unfold AgentRegistry.unregister_agent, AgentRegistry.get_agent.
    destruct (PyDict.mem id r) eqn:Hm.
    - split; [now apply get_delitem_same | now apply delitem_nodup].
    - split; [|exact Hr]. apply get_not_in, mem_false_not_in, Hm. }
  split; [|split].
  - intros card. unfold AgentRegistry.register_agent.
    split; [apply get_setitem_same|].
    assert (Hnd' := setitem_nodup reg (agent_id card) card Hnd).
    split; [exact Hnd'|]. now apply Hun.
  - intros id; now apply Hun.
  - intros id Hm; unfold AgentRegistry.unregister_agent; now rewrite Hm.
Qed.

End RegistryProps.

(** A registry holding one research agent, used by the examples below. *)
Definition card_of (id : string) (caps : list string) : AgentCard :=
  mkAgentCard id id ("Agent " ++ id) caps [("http", "local")] [("type", "api_key")] [].

Module RegistryWitness.
(** Claim C8 at the empty registry with one card. *)
Lemma register_get_unregister_witness :
  NoDup (PyDict.keys AgentRegistry.empty) /\
  AgentRegistry.get_agent
    (AgentRegistry.register_agent AgentRegistry.empty (card_of "r1" ["web_search"])) "r1"
    = Some (card_of "r1" ["web_search"]).
Proof.
  assert (H : NoDup (PyDict.keys AgentRegistry.empty)) by constructor.
  split; [exact H|].
  exact (proj1 (proj1 (RegistryProps.register_get_unregister _ H) (card_of "r1" ["web_search"]))).
Defined.
End RegistryWitness.

(** ** Conversation history with a limit *)

(** Claim C10: for a user with a non-empty history [h], a limit of [0] gives
    back the whole of [h], as no limit does, and a positive limit [n] gives
    the suffix of [h] of length [min n (length h)]: exactly the last [n]
    entries when there are at least [n]. *)
Theorem history_limit_zero_full (cm : ConversationManager) (u : string)
    (h : list Message)
    (Hh : PyDict.get (conversation_history cm) u = Some h) (Hne : h <> []) :
  get_conversation_history cm u (Some 0%Z) = h
  /\ get_conversation_history cm u None = h
  /\ (forall n : Z, (0 < n)%Z ->
        let r := get_conversation_history cm u (Some n) in
        (exists pre, h = (pre ++ r)%list)
        /\ length r = Nat.min (Z.to_nat n) (length h)).
Proof.
  unfold get_conversation_history; rewrite Hh.
  split; [reflexivity|split; [reflexivity|]].
  intros n Hn. cbv zeta.
  replace (n =? 0)%Z with false by (symmetry; apply Z.eqb_neq; lia).
  rewrite py_slice_from_neg by exact Hn.
  split.
  - exists (firstn (length h - Z.to_nat n) h). symmetry; apply firstn_skipn.
  - rewrite length_skipn. lia.
Qed.

(** A manager whose user ["u"] has logged three entries. *)
Definition manager_3 : ConversationManager :=
  mkConversationManager []
    [("u", [mkMessage "user" "hi" 0; mkMessage "assistant" "hello" 1;
            mkMessage "user" "bye" 2])] [].

Lemma history_limit_zero_full_witness :
  get_conversation_history manager_3 "u" (Some 0%Z) =
    [mkMessage "user" "hi" 0; mkMessage "assistant" "hello" 1; mkMessage "user" "bye" 2].
Proof.
  exact (proj1 (history_limit_zero_full manager_3 "u" _ eq_refl ltac:(discriminate))).
Defined.

Example history_limit_two : get_conversation_history manager_3 "u" (Some 2%Z) =
  [mkMessage "assistant" "hello" 1; mkMessage "user" "bye" 2].
Proof. reflexivity. Qed.

(** ** Delegation and broadcast *)

(** A transport that refuses every delivery. *)
Definition transport_down (_ : AgentCard) (_ : Envelope) (_ : nat) : Exc + Response :=
  inl (Exception "connection refused").

Definition world0 : World := mkWorld 100 [] [].

Definition client_of (reg : AgentRegistry.t) (listeners : list string) : A2AClient :=
  mkA2AClient "orchestrator" reg (map (fun l => (l, true)) listeners) [].

Definition task_of (ty : string) (caps : list string) : Task :=
  mkTask (Some ty) "do it" "u" (Some caps) [] [] 0.

Section DelegationProps.

Variable transport : AgentCard -> Envelope -> nat -> Exc + Response.

(** Claim C4: [delegate_task] looks the target up with [get_agent]; when it
    is absent it raises the not-found [ValueError] with the world untouched
    (no envelope sent, nothing delivered); when it is present and the
    delivery of the [task_delegation] envelope raises [e], exactly that one
    delivery was attempted and [delegate_task] raises an [Exception] whose
    message carries the target id and [str(e)]. *)
Theorem delegate_task_failures (c : A2AClient) (target : string) (task : Task)
    (w : World) :
  (AgentRegistry.get_agent (registry c) target = None ->
     delegate_task transport c target task w
       = (w, inl (ValueError ("Agent " ++ target ++ " not found in registry"))))
  /\ (forall card e,
        AgentRegistry.get_agent (registry c) target = Some card ->
        transport card (delegation_envelope c target task (clock w)) (clock w) = inl e ->
        delegate_task transport c target task w
          = (mkWorld (clock w)
               (sent w ++ [(card, delegation_envelope c target task (clock w))])%list
               (printed w),
             inl (Exception ("Failed to delegate task to " ++ target ++ ": "
                             ++ str_exc e)))).
Proof.
  split.
  - intros Hg. unfold delegate_task. now rewrite Hg.
  - intros card e Hg Ht. unfold delegate_task. rewrite Hg.
    unfold bind, now, try_except, send_message, raise; simpl. now rewrite Ht.
Qed.

(** The deliveries a broadcast attempts: one per listener found in the
    registry, in listener order. *)
Definition broadcast_deliveries (c : A2AClient) (msg : Envelope) : list (AgentCard * Envelope) :=
  flat_map (fun l => match AgentRegistry.get_agent (registry c) l with
                     | Some card => [(card, msg)]
                     | None => []
                     end) (PyDict.keys (status_listeners c)).

(** A loop whose body never raises, keeps the clock and appends [f x] to
    the deliveries appends [flat_map f xs]. *)
Lemma for_each_deliveries {A} (body : A -> M unit)
    (f : A -> list (AgentCard * Envelope)) :
  (forall x w, snd (body x w) = inr tt /\ clock (fst (body x w)) = clock w
               /\ sent (fst (body x w)) = (sent w ++ f x)%list) ->
  forall xs w,
    snd (for_each xs body w) = inr tt /\ clock (fst (for_each xs body w)) = clock w
    /\ sent (fst (for_each xs body w)) = (sent w ++ flat_map f xs)%list.
Proof.
  intros Hbody xs; induction xs as [|x xs IH]; intros w; simpl.
  - now rewrite app_nil_r.
  - unfold bind. destruct (Hbody x w) as (H1 & H2 & H3).
    destruct (body x w) as [w1 r1]; simpl in *; subst r1.
    destruct (IH w1) as (H4 & H5 & H6).
    split; [exact H4|split; [congruence|]].
    rewrite H6, H3. now rewrite <- app_assoc.
Qed.

Lemma broadcast_step (c : A2AClient) (msg : Envelope) (l : string) (w : World) :
  let r := try_except (send_status_update transport c l msg)
             (fun e => print ("Failed to send status to " ++ l ++ ": " ++ str_exc e)) w in
  snd r = inr tt /\ clock (fst r) = clock w
  /\ sent (fst r) = (sent w ++ match AgentRegistry.get_agent (registry c) l with
                               | Some card => [(card, msg)]
                               | None => []
                               end)%list.
Proof.
  unfold try_except, send_status_update.
  destruct (AgentRegistry.get_agent (registry c) l) as [card|].
  - unfold bind, send_message, ret, print; simpl.
    destruct (transport card msg (clock w)); simpl; auto.
  - unfold ret; simpl. now rewrite app_nil_r.
Qed.

(** Claim C5 (as the code does it): [broadcast_status] never raises, and
    whatever the transport does (answers or raises) for each listener, it
    attempts exactly one delivery of the [status_update] envelope to every
    listener that the registry resolves, in listener order; a listener the
    registry does not know is skipped without a delivery attempt. *)
Theorem broadcast_status_best_effort (c : A2AClient) (status : list (string * string))
    (w : World) :
  let res := broadcast_status transport c status w in
  snd res = inr tt
  /\ sent (fst res)
     = (sent w ++ broadcast_deliveries c (status_envelope c status (clock w)))%list.
Proof.
  unfold broadcast_status, bind at 1, now; cbv zeta.
  destruct (for_each_deliveries _ _ (broadcast_step c (status_envelope c status (clock w)))
              (PyDict.keys (status_listeners c)) w) as (H1 & _ & H3).
  split; [exact H1|exact H3].
Qed.

End DelegationProps.

(** Claim C4 at a registry without the target, and with a refusing
    transport. *)
Lemma delegate_task_failures_witness :
  delegate_task transport_down (client_of [] []) "remote" (task_of "research" [])
    world0
  = (world0, inl (ValueError ("Agent remote not found in registry")))
  /\ delegate_task transport_down (client_of [("remote", card_of "remote" [])] [])
       "remote" (task_of "research" []) world0
     = (mkWorld 100
          [(card_of "remote" [],
            delegation_envelope (client_of [("remote", card_of "remote" [])] [])
              "remote" (task_of "research" []) 100)] [],
        inl (Exception "Failed to delegate task to remote: connection refused")).
Proof.
  split.
  - exact (proj1 (delegate_task_failures transport_down (client_of [] []) "remote"
                    (task_of "research" []) world0) eq_refl).
  - exact (proj2 (delegate_task_failures transport_down
                    (client_of [("remote", card_of "remote" [])] []) "remote"
                    (task_of "research" []) world0)
                 (card_of "remote" []) (Exception "connection refused") eq_refl eq_refl).
Defined.

(** Claim C5, against the claim: a subscriber that is not in the registry
    gets no delivery attempt at all. *)
Lemma broadcast_skips_unregistered_subscriber :
  PyDict.keys (status_listeners (client_of [] ["monitor"])) = ["monitor"]
  /\ broadcast_status transport_sim (client_of [] ["monitor"]) [("status", "busy")] world0
     = (world0, inr tt).
Proof. split; reflexivity. Qed.

(** ** Agent selection and routing *)

Module RouterProps.
Import PyDictFacts.

Lemma get_in {V} (d : PyDict.t V) k v : PyDict.get d k = Some v -> In (k, v) d.
Proof.
  induction d as [|[k' v'] d IH]; simpl; [discriminate|].
  destruct (String.eqb k k') eqn:E.
  - intros H; injection H as <-. apply String.eqb_eq in E; subst; now left.
  - intros H; right; now apply IH.
Qed.

(** No local handle of [ids] matches: the rule scan selects nothing. *)
Lemma rule_scan_none ags ids req :
  (forall x b, In x ids -> PyDict.get ags x = Some b ->
               agent_has_capabilities b req = false) ->
  rule_scan ags ids req = None.
Proof.
  induction ids as [|x ids IH]; simpl; intros H; [reflexivity|].
  destruct (PyDict.get ags x) as [b|] eqn:Hg.
  - rewrite (H x b (or_introl eq_refl) Hg). apply IH; eauto.
  - apply IH; eauto.
Qed.

(** The rule scan selects the first local, matching id of the list. *)
Lemma rule_scan_first ags pre id post req a :
  PyDict.get ags id = Some a -> agent_has_capabilities a req = true ->
  (forall x b, In x pre -> PyDict.get ags x = Some b ->
               agent_has_capabilities b req = false) ->
  rule_scan ags (pre ++ id :: post) req = Some id.
Proof.
  intros Ha Hc; induction pre as [|x pre IH]; simpl; intros Hpre.
  - now rewrite Ha, Hc.
  - destruct (PyDict.get ags x) as [b|] eqn:Hg.
    + rewrite (Hpre x b (or_introl eq_refl) Hg). apply IH; eauto.
    + apply IH; eauto.
Qed.

Lemma local_scan_none (items : PyDict.t LocalAgent) req :
  (forall id a, In (id, a) items -> agent_has_capabilities a req = false) ->
  local_scan items req = None.
Proof.
  induction items as [|[id a] items IH]; simpl; intros H; [reflexivity|].
  rewrite (H id a (or_introl eq_refl)). apply IH; eauto.
Qed.

Lemma external_scan_spec reg caps id :
  external_scan reg caps = Some id <->
  exists pre cap post card rest,
    caps = (pre ++ cap :: post)%list
    /\ (forall p, In p pre -> AgentRegistry.discover_agents reg p = [])
    /\ AgentRegistry.discover_agents reg cap = card :: rest
    /\ id = agent_id card.
Proof.
  induction caps as [|c caps IH]; simpl.
  - split; [discriminate|].
    intros (pre & cap & post & _ & _ & Hc & _). destruct pre; discriminate.
  - destruct (AgentRegistry.discover_agents reg c) as [|card rest] eqn:Hd.
    + rewrite IH. split.
      * intros (pre & cap & post & card & rest & -> & Hp & Hcap & ->).
        exists (c :: pre), cap, post, card, rest.
        split; [reflexivity|split; [|split; [exact Hcap|reflexivity]]].
        intros p [<-|Hp']; [exact Hd|now apply Hp].
      * intros ([|p0 pre] & cap & post & card & rest & Heq & Hp & Hcap & ->);
          simpl in Heq; injection Heq as <- Heq.
        -- rewrite Hd in Hcap; discriminate.
        -- exists pre, cap, post, card, rest.
           split; [exact Heq|split; [|split; [exact Hcap|reflexivity]]].
           intros p Hin; apply Hp; now right.
    + split.
      * intros H; injection H as <-. exists [], c, caps, card, rest.
        split; [reflexivity|split; [intros p []|split; [exact Hd|reflexivity]]].
      * intros ([|p0 pre] & cap & post & card' & rest' & Heq & Hp & Hcap & ->);
          simpl in Heq; injection Heq as <- Heq.
        -- rewrite Hd in Hcap; now injection Hcap as -> _.
        -- rewrite (Hp c (or_introl eq_refl)) in Hd; discriminate.
Qed.

(** Claim C1 (as the code does it): when the task type has a rule entry
    [ids], the first id of [ids] that is a local handle whose capabilities
    cover the required ones is selected, whatever non-local ids come before
    it; when no id of [ids] is such a handle, the rule entry selects nothing
    and selection goes on with the scan of all local handles and then the
    directory fallback. *)
Theorem rule_entry_selects_first_local (r : AgentRouter) (ty : string)
    (req : list string) (ids : list string)
    (Hr : PyDict.get (routing_rules r) ty = Some ids) :
  (forall pre id post a,
      ids = (pre ++ id :: post)%list ->
      PyDict.get (agents r) id = Some a ->
      agent_has_capabilities a req = true ->
      (forall x b, In x pre -> PyDict.get (agents r) x = Some b ->
                   agent_has_capabilities b req = false) ->
      select_best_agent r ty req = Some id)
  /\ ((forall x b, In x ids -> PyDict.get (agents r) x = Some b ->
                   agent_has_capabilities b req = false) ->
      select_best_agent r ty req =
        match local_scan (agents r) req with
        | Some id => Some id
        | None => if nonempty req then external_scan (registry (a2a_client r)) req
                  else None
        end).
Proof.
  unfold select_best_agent; rewrite Hr. split.
  - intros pre id post a -> Ha Hc Hpre. now rewrite (rule_scan_first _ pre id post req a).
  - intros Hnone. now rewrite rule_scan_none.
Qed.

(** Claim C3: a task with required capabilities that no local handle
    covers is sent to the directory: the selected id is the agent id of the
    first card [discover_agents] returns for the first required capability
    (in order) that has any card; that card is only known to advertise this
    one capability. Selection fails when no required capability has a
    card. *)
Theorem external_fallback_first_discovered (r : AgentRouter) (ty : string)
    (req : list string) (Hne : req <> [])
    (Hloc : forall id a, In (id, a) (agents r) -> agent_has_capabilities a req = false) :
  (forall id,
      select_best_agent r ty req = Some id <->
      exists pre cap post card rest,
        req = (pre ++ cap :: post)%list
        /\ (forall p, In p pre ->
              AgentRegistry.discover_agents (registry (a2a_client r)) p = [])
        /\ AgentRegistry.discover_agents (registry (a2a_client r)) cap = card :: rest
        /\ id = agent_id card)
  /\ (select_best_agent r ty req = None <->
      forall cap, In cap req ->
        AgentRegistry.discover_agents (registry (a2a_client r)) cap = []).
Proof.
  assert (Hsel : select_best_agent r ty req
                 = external_scan (registry (a2a_client r)) req).
  { unfold select_best_agent.
    assert (Hrules : match PyDict.get (routing_rules r) ty with
                     | Some ids => rule_scan (agents r) ids req
                     | None => None
                     end = None).
    { destruct (PyDict.get (routing_rules r) ty); [|reflexivity].
      apply rule_scan_none. intros x b _ Hg. exact (Hloc x b (get_in _ _ _ Hg)). }
    rewrite Hrules, local_scan_none by exact Hloc.
    destruct req; [contradiction|reflexivity]. }
  rewrite Hsel. split; [intros id; apply external_scan_spec|].
  clear Hne Hsel Hloc. induction req as [|c req IH]; simpl.
  - split; [tauto|reflexivity].
  - destruct (AgentRegistry.discover_agents _ c) as [|card rest] eqn:Hd.
    + rewrite IH. split.
      * intros H cap [<-|Hin]; [exact Hd|now apply H].
      * intros H cap Hin; apply H; now right.
    + split; [discriminate|]. intros H. rewrite (H c (or_introl eq_refl)) in Hd.
      discriminate.
Qed.

End RouterProps.

Module RouteProps.
Import RouterProps.

(** Claim C2 (as the code does it): when selection finds no agent,
    [route_task] does not raise: it returns the text
    ["No suitable agent found for task type: <type>"] and leaves the world
    untouched. *)
Theorem route_no_agent_returns_text
    (transport : AgentCard -> Envelope -> nat -> Exc + Response)
    (r : AgentRouter) (task : Task) (w : World)
    (Hsel : select_best_agent r (task_type_of task) (required_capabilities_of task) = None) :
  route_task transport r task w
    = (w, inr ("No suitable agent found for task type: " ++ task_type_of task)).
Proof. unfold route_task; now rewrite Hsel. Qed.

(** With no required capability, a router with at least one local handle
    always selects a local handle. *)
Lemma select_empty_caps_local (r : AgentRouter) (ty : string) :
  agents r <> [] ->
  exists id a, select_best_agent r ty [] = Some id /\ PyDict.get (agents r) id = Some a.
Proof.
  intros Hne. unfold select_best_agent.
  assert (Hrule : forall ids id, rule_scan (agents r) ids [] = Some id ->
                  exists a, PyDict.get (agents r) id = Some a).
  { induction ids as [|x ids IH]; simpl; [discriminate|]. intros id.
    destruct (PyDict.get (agents r) x) as [a|] eqn:Hg; simpl.
    - intros H; injection H as <-; eauto.
    - apply IH. }
  destruct (match PyDict.get (routing_rules r) ty with
            | Some ids => rule_scan (agents r) ids []
            | None => None end) as [id|] eqn:Hr.
  - destruct (PyDict.get (routing_rules r) ty) as [ids|]; [|discriminate].
    destruct (Hrule ids id Hr) as [a Ha]; eauto.
  - destruct (agents r) as [|[id a] items] eqn:Ha; [contradiction|].
    exists id, a; simpl. now rewrite String.eqb_refl.
Qed.

(** A handle that answers every task. *)
Definition echo_agent (caps : list string) : LocalAgent :=
  mkLocalAgent caps (fun _ => ret "done").

(** A router whose only local handle is registered under the empty id. *)
Definition router_empty_id : AgentRouter :=
  mkAgentRouter [("", echo_agent [])] [] (client_of [] []).

(** Claim C9, at the failing input: with no required capability the local
    handle registered under [""] is selected, yet [route_task] tests the
    selection with Python truthiness ([if not best_agent]), reads [""] as no
    selection and answers that no agent is suitable. *)
Theorem route_empty_id_handle_reported_unsuitable :
  select_best_agent router_empty_id "general" [] = Some ""
  /\ PyDict.get (agents router_empty_id) "" = Some (echo_agent [])
  /\ route_task transport_sim router_empty_id (task_of "general" []) world0
     = (world0, inr "No suitable agent found for task type: general").
Proof. split; [reflexivity|split; reflexivity]. Qed.

End RouteProps.

(** A router with a rule [research -> [remote; local]], a local handle
    ["local"] and a directory card ["remote"], both with [web_search]. *)
Definition router_rule : AgentRouter :=
  mkAgentRouter [("local", RouteProps.echo_agent ["web_search"])]
    [("research", ["remote"; "local"])]
    (client_of [("remote", card_of "remote" ["web_search"])] []).

(** Claim C1, against the claim: the non-local id ["remote"] comes first in
    the rule list and the directory resolves it to a card advertising the
    required capability, yet the rule scan skips it and selects ["local"]. *)
Lemma rule_entry_skips_resolvable_remote :
  PyDict.get (routing_rules router_rule) "research" = Some ["remote"; "local"]
  /\ PyDict.get (agents router_rule) "remote" = None
  /\ AgentRegistry.get_agent (registry (a2a_client router_rule)) "remote"
       = Some (card_of "remote" ["web_search"])
  /\ all_in ["web_search"] (capabilities (card_of "remote" ["web_search"])) = true
  /\ select_best_agent router_rule "research" ["web_search"] = Some "local".
Proof. repeat split. Qed.

Lemma rule_entry_selects_first_local_witness :
  select_best_agent router_rule "research" ["web_search"] = Some "local".
Proof.
  refine (proj1 (RouterProps.rule_entry_selects_first_local router_rule "research"
                   ["web_search"] ["remote"; "local"] eq_refl)
            ["remote"] "local" [] (RouteProps.echo_agent ["web_search"])
            eq_refl eq_refl eq_refl _).
  intros x b [<-|[]] Hg; discriminate Hg.
Defined.

(** A router with no local handle and a directory holding one card with
    [web_search] only. *)
Definition router_remote_only : AgentRouter :=
  mkAgentRouter [] [] (client_of [("remote", card_of "remote" ["web_search"])] []).

Lemma external_fallback_first_discovered_witness :
  select_best_agent router_remote_only "research" ["data_analysis"; "web_search"]
    = Some "remote".
Proof.
  apply (proj2 (proj1 (RouterProps.external_fallback_first_discovered router_remote_only
                         "research" ["data_analysis"; "web_search"] ltac:(discriminate)
                         (fun id a H => match H with end)) "remote")).
  exists ["data_analysis"], "web_search", [], (card_of "remote" ["web_search"]), [].
  split; [reflexivity|split; [|split; reflexivity]].
  intros p [<-|[]]; reflexivity.
Defined.

(** The card selected above lacks [data_analysis], a required capability. *)
Example external_fallback_partial_match :
  list_in "data_analysis" (capabilities (card_of "remote" ["web_search"])) = false.
Proof. reflexivity. Qed.

(** Claim C2, against the claim: with no handle, no rule and an empty
    directory, selection finds nothing and [route_task] returns a text
    instead of raising. *)
Lemma route_no_agent_not_raised :
  select_best_agent (mkAgentRouter [] [] (client_of [] [])) "research" ["web_search"] = None
  /\ route_task transport_sim (mkAgentRouter [] [] (client_of [] []))
       (task_of "research" ["web_search"]) world0
     = (world0, inr "No suitable agent found for task type: research").
Proof. split; reflexivity. Qed.

Lemma route_no_agent_returns_text_witness :
  route_task transport_sim (mkAgentRouter [] [] (client_of [] []))
    (task_of "research" ["web_search"]) world0
  = (world0, inr "No suitable agent found for task type: research").
Proof.
  exact (RouteProps.route_no_agent_returns_text transport_sim
           (mkAgentRouter [] [] (client_of [] [])) (task_of "research" ["web_search"])
           world0 eq_refl).
Defined.

(** ** Message classification *)

Module ClassifyProps.

(** [kw] occurs in [s] as a substring. *)
Definition occurs (kw s : string) : Prop := exists pre suf, s = pre ++ kw ++ suf.

(** The lowered message contains one of the keywords [kws]. *)
Definition mentions (kws : list string) (msg : string) : Prop :=
  exists kw, In kw kws /\ occurs kw (lower msg).

Lemma prefix_iff (s1 s2 : string) :
  String.prefix s1 s2 = true <-> exists suf, s2 = s1 ++ suf.
Proof.
  revert s2; induction s1 as [|a s1 IH]; intros s2.
  - split; [now exists s2|intros _; now destruct s2].
  - destruct s2 as [|b s2]; simpl.
    + split; [discriminate|]. intros [suf H]; discriminate.
    + destruct (ascii_dec a b) as [<-|Hne].
      * rewrite IH. split; intros [suf H]; exists suf; [now subst|now injection H].
      * split; [discriminate|]. intros [suf H]; injection H as H _; congruence.
Qed.

Lemma str_in_unfold (sub s : string) :
  str_in sub s = String.prefix sub s || match s with
                                        | EmptyString => false
                                        | String _ s' => str_in sub s'
                                        end.
Proof. destruct s; reflexivity. Qed.

Lemma str_in_iff (sub s : string) : str_in sub s = true <-> occurs sub s.
Proof.
  unfold occurs. induction s as [|c s IH]; rewrite str_in_unfold.
  - rewrite orb_false_r, prefix_iff. split.
    + intros [suf H]; now exists "", suf.
    + intros ([|c pre] & suf & H); [now exists suf|discriminate].
  - rewrite orb_true_iff, prefix_iff, IH. split.
    + intros [[suf H]|(pre & suf & H)].
      * now exists "", suf.
      * exists (String c pre), suf; now rewrite H.
    + intros ([|c' pre] & suf & H).
      * left; now exists suf.
      * right; exists pre, suf; now injection H.
Qed.

Lemma any_keyword_iff (kws : list string) (msg : string) :
  any_keyword kws (lower msg) = true <-> mentions kws msg.
Proof.
  unfold any_keyword, mentions. rewrite existsb_exists.
  split; intros [kw [Hin Hk]]; exists kw; split; try exact Hin;
    apply str_in_iff; exact Hk.
Qed.

Lemma any_keyword_false (kws : list string) (msg : string) :
  any_keyword kws (lower msg) = false <-> ~ mentions kws msg.
Proof.
  rewrite <- any_keyword_iff. destruct (any_keyword kws (lower msg)); split; congruence.
Qed.

Lemma analyze_user_message_result cm u msg w :
  analyze_user_message cm u msg w
  = (w, inr (mkTask (Some (fst (classify msg))) msg u (Some (snd (classify msg)))
               (match PyDict.get (conversation_state cm) u with
                | Some s => context s | None => [] end)
               (py_slice_from (-5) (match PyDict.get (conversation_history cm) u with
                                    | Some h => h | None => [] end))
               (clock w))).
Proof. unfold analyze_user_message. now destruct (classify msg). Qed.

(** Claim C6: [_analyze_user_message] classifies by the ordered keyword
    table, case-insensitively (on the lowered text) and by substring, the
    first matching category winning; a text matching no category gives
    [general] with no required capability. *)
Theorem classification_first_match (cm : ConversationManager) (u msg : string)
    (w : World) :
  exists t,
    analyze_user_message cm u msg w = (w, inr t)
    /\ task_message t = msg
    /\ (mentions ["search"; "find"; "research"; "look up"] msg ->
          task_type t = Some "research"
          /\ task_capabilities t = Some ["web_search"; "data_analysis"])
    /\ (~ mentions ["search"; "find"; "research"; "look up"] msg ->
        mentions ["plan"; "schedule"; "organize"; "break down"] msg ->
          task_type t = Some "planning"
          /\ task_capabilities t = Some ["task_decomposition"; "workflow_planning"])
    /\ (~ mentions ["search"; "find"; "research"; "look up"] msg ->
        ~ mentions ["plan"; "schedule"; "organize"; "break down"] msg ->
        mentions ["analyze"; "report"; "summarize"] msg ->
          task_type t = Some "analysis"
          /\ task_capabilities t = Some ["data_analysis"; "report_generation"])
    /\ (~ mentions ["search"; "find"; "research"; "look up"] msg ->
        ~ mentions ["plan"; "schedule"; "organize"; "break down"] msg ->
        ~ mentions ["analyze"; "report"; "summarize"] msg ->
        mentions ["code"; "program"; "implement"; "develop"] msg ->
          task_type t = Some "coding"
          /\ task_capabilities t = Some ["code_generation"; "debugging"])
    /\ (~ mentions ["search"; "find"; "research"; "look up"] msg ->
        ~ mentions ["plan"; "schedule"; "organize"; "break down"] msg ->
        ~ mentions ["analyze"; "report"; "summarize"] msg ->
        ~ mentions ["code"; "program"; "implement"; "develop"] msg ->
          task_type t = Some "general" /\ task_capabilities t = Some []).
Proof.
  rewrite analyze_user_message_result. eexists; split; [reflexivity|].
  simpl. split; [reflexivity|]. unfold classify.
  destruct (any_keyword research_keywords (lower msg)) eqn:Hr;
  destruct (any_keyword planning_keywords (lower msg)) eqn:Hp;
  destruct (any_keyword analysis_keywords (lower msg)) eqn:Ha;
  destruct (any_keyword coding_keywords (lower msg)) eqn:Hc;
  repeat match goal with
         | H : any_keyword _ (lower msg) = true |- _ => apply any_keyword_iff in H
         | H : any_keyword _ (lower msg) = false |- _ => apply any_keyword_false in H
         end;
  simpl; unfold research_keywords, planning_keywords, analysis_keywords,
    coding_keywords in *;
  repeat split; intros; tauto.
Qed.

End ClassifyProps.

Lemma classification_first_match_witness :
  ClassifyProps.mentions ["search"; "find"; "research"; "look up"] "Search for X"
  /\ exists t, analyze_user_message empty_manager "u" "Search for X" world0 = (world0, inr t)
               /\ task_type t = Some "research".
Proof.
  assert (Hm : ClassifyProps.mentions ["search"; "find"; "research"; "look up"]
                 "Search for X").
  { exists "search"; split; [now left|]. now exists "", " for x". }
  split; [exact Hm|].
  destruct (ClassifyProps.classification_first_match empty_manager "u" "Search for X" world0)
    as (t & Ht & _ & Hres & _).
  exists t; split; [exact Ht|]. exact (proj1 (Hres Hm)).
Defined.

Example classify_search : classify "search for X" = ("research", ["web_search"; "data_analysis"]).
Proof. reflexivity. Qed.

Example classify_plan : classify "plan a project" =
  ("planning", ["task_decomposition"; "workflow_planning"]).
Proof. reflexivity. Qed.

Example classify_other : classify "hello there" = ("general", []).
Proof. reflexivity. Qed.

(** ** Conversation history across turns *)

Module HistoryProps.
Import PyDictFacts.

Definition hist_of (cm : ConversationManager) (u : string) : list Message :=
  match PyDict.get (conversation_history cm) u with Some h => h | None => [] end.

(** The history a [process_user_input] call for [u] starts from: a user
    without a session gets a fresh, empty history. *)
Definition prior_history (cm : ConversationManager) (u : string) : list Message :=
  if PyDict.mem u (conversation_state cm) then hist_of cm u else [].

Definition entry (m : Message) : string * string := (role m, content m).

Lemma mem_setitem_same {V} (d : PyDict.t V) k v : PyDict.mem k (PyDict.setitem d k v) = true.
Proof. unfold PyDict.mem; now rewrite get_setitem_same. Qed.

Lemma log_message_spec cm u ro co w :
  exists cm', log_message cm u ro co w = (w, inr cm')
    /\ hist_of cm' u = (hist_of cm u ++ [mkMessage ro co (clock w)])%list
    /\ PyDict.mem u (conversation_state cm') = PyDict.mem u (conversation_state cm).
Proof.
  unfold log_message, bind, now, ret; simpl. eexists; split; [reflexivity|].
  unfold hist_of; simpl. rewrite get_setitem_same. split; [reflexivity|].
  unfold PyDict.mem at 2.
  destruct (PyDict.get (conversation_state cm) u) eqn:Hs; [apply mem_setitem_same|].
  unfold PyDict.mem; now rewrite Hs.
Qed.

Lemma route_task_total transport r task w :
  exists w' resp, route_task transport r task w = (w', inr resp).
Proof.
  unfold route_task, ret.
  destruct (select_best_agent r _ _) as [best|]; [|eauto].
  destruct (falsy_opt_str (Some best)); [eauto|].
  unfold try_except. destruct (execute_task_with_agent transport r best task w)
    as [w1 [e|s]]; eauto.
Qed.

(** One turn appends the user entry, then the answer of the router. *)
Lemma process_one_turn (route : Task -> M string)
    (Hroute : forall t w, exists w' resp, route t w = (w', inr resp))
    cm u m w :
  match process_user_input route cm u m w with
  | (w', inr (cm', resp)) =>
      map entry (hist_of cm' u)
        = (map entry (prior_history cm u) ++ [("user", m); ("assistant", resp)])%list
      /\ PyDict.mem u (conversation_state cm') = true
  | _ => False
  end.
Proof.
  unfold process_user_input, bind at 1.
  set (init := if PyDict.mem u (conversation_state cm) then ret cm
               else initialize_conversation cm u).
  assert (Hinit : exists w0 cm0, init w = (w0, inr cm0)
                    /\ hist_of cm0 u = prior_history cm u
                    /\ PyDict.mem u (conversation_state cm0) = true).
  { unfold init, prior_history. destruct (PyDict.mem u (conversation_state cm)) eqn:Hm.
    - exists w, cm; auto.
    - unfold initialize_conversation, bind, now, print, ret; simpl.
      eexists; eexists; split; [reflexivity|]. unfold hist_of; simpl.
      rewrite get_setitem_same. split; [reflexivity|apply mem_setitem_same]. }
  destruct Hinit as (w0 & cm0 & -> & Hh0 & Hm0).
  unfold bind at 1.
  destruct (log_message_spec cm0 u "user" m w0) as (cm1 & -> & Hh1 & Hm1).
  unfold bind at 1. rewrite ClassifyProps.analyze_user_message_result.
  unfold bind at 1.
  match goal with |- context [route ?t w0] =>
    destruct (Hroute t w0) as (w2 & resp & ->) end.
  unfold bind.
  destruct (log_message_spec cm1 u "assistant" resp w2) as (cm2 & -> & Hh2 & Hm2).
  unfold ret; simpl. split; [|congruence].
  rewrite Hh2, Hh1, Hh0. rewrite !map_app. simpl. now rewrite <- app_assoc.
Qed.

(** Claim C7 (as the code does it): two successive turns [m1], [m2] of user
    [u] through the router append [user:m1, assistant:r1, user:m2,
    assistant:r2] in this order to the history [u] had before (empty for a
    user without a session); neither call raises. *)
Theorem history_two_turns
    (transport : AgentCard -> Envelope -> nat -> Exc + Response)
    (r : AgentRouter) (cm : ConversationManager) (u m1 m2 : string) (w : World) :
  match process_user_input (route_task transport r) cm u m1 w with
  | (w1, inr (cm1, r1)) =>
      match process_user_input (route_task transport r) cm1 u m2 w1 with
      | (w2, inr (cm2, r2)) =>
          map entry (get_conversation_history cm2 u None)
            = (map entry (prior_history cm u)
               ++ [("user", m1); ("assistant", r1); ("user", m2); ("assistant", r2)])%list
      | _ => False
      end
  | _ => False
  end.
Proof.
  pose proof (process_one_turn (route_task transport r) (route_task_total transport r)
                cm u m1 w) as H1.
  destruct (process_user_input (route_task transport r) cm u m1 w)
    as [w1 [e|[cm1 r1]]]; [contradiction|].
  destruct H1 as [Hh1 Hm1].
  pose proof (process_one_turn (route_task transport r) (route_task_total transport r)
                cm1 u m2 w1) as H2.
  destruct (process_user_input (route_task transport r) cm1 u m2 w1)
    as [w2 [e|[cm2 r2]]]; [contradiction|].
  destruct H2 as [Hh2 _].
  unfold prior_history in Hh2. rewrite Hm1 in Hh2.
  change (get_conversation_history cm2 u None) with (hist_of cm2 u).
  rewrite Hh2, Hh1. now rewrite <- app_assoc.
Qed.

End HistoryProps.

(** The empty router: every task is answered with the no-agent text. *)
Definition router_empty : AgentRouter := mkAgentRouter [] [] (client_of [] []).

(** Claim C7, against the claim: for a user with an earlier turn, two more
    turns leave six entries in the history, not four. *)
Lemma history_two_turns_after_earlier_turn :
  match process_user_input (route_task transport_sim router_empty) empty_manager "u"
          "hello" world0 with
  | (w1, inr (cm1, _)) =>
      match process_user_input (route_task transport_sim router_empty) cm1 "u"
              "search for X" w1 with
      | (w2, inr (cm2, r1)) =>
          match process_user_input (route_task transport_sim router_empty) cm2 "u"
                  "plan a project" w2 with
          | (_, inr (cm3, r2)) =>
              length (get_conversation_history cm3 "u" None) = 6
              /\ map HistoryProps.entry (get_conversation_history cm3 "u" None)
                 <> [("user", "search for X"); ("assistant", r1);
                     ("user", "plan a project"); ("assistant", r2)]
          | _ => False
          end
      | _ => False
      end
  | _ => False
  end.
Proof. vm_compute. split; [reflexivity|discriminate]. Qed.

(** For a user without a session, the two turns are the whole history. *)
Example history_two_turns_fresh_user :
  HistoryProps.prior_history empty_manager "u" = [].
Proof. reflexivity. Qed.

(** * Further properties of the orchestration code *)

Module DictMore.
Import PyDictFacts.
Section Facts.
Context {V : Type}.
Implicit Types (d : PyDict.t V) (k : string) (v : V).

Lemma get_setitem_other d k k' v : k' <> k -> PyDict.get (PyDict.setitem d k v) k' = PyDict.get d k'.
Proof.
  intros Hne. induction d as [|[k0 v0] d IH]; simpl.
  - destruct (String.eqb k' k) eqn:E; [apply String.eqb_eq in E; congruence|reflexivity].
  - destruct (String.eqb k k0) eqn:E; simpl.
    + apply String.eqb_eq in E; subst.
      destruct (String.eqb k' k0) eqn:E'; [apply String.eqb_eq in E'; congruence|reflexivity].
    + destruct (String.eqb k' k0); [reflexivity|exact IH].
Qed.

Lemma get_delitem_other d k k' : k' <> k -> PyDict.get (PyDict.delitem d k) k' = PyDict.get d k'.
Proof.
  intros Hne. induction d as [|[k0 v0] d IH]; simpl; [reflexivity|].
  destruct (String.eqb k k0) eqn:E; simpl.
  - apply String.eqb_eq in E; subst.
    destruct (String.eqb k' k0) eqn:E'; [apply String.eqb_eq in E'; congruence|reflexivity].
  - destruct (String.eqb k' k0); [reflexivity|exact IH].
Qed.

Lemma setitem_setitem d k v v' :
  PyDict.setitem (PyDict.setitem d k v) k v' = PyDict.setitem d k v'.
Proof.
  induction d as [|[k0 v0] d IH]; simpl.
  - now rewrite String.eqb_refl.
  - destruct (String.eqb k k0) eqn:E; simpl; rewrite E; [reflexivity|now rewrite IH].
Qed.

Lemma delitem_setitem_new d k v : ~ In k (PyDict.keys d) ->
  PyDict.delitem (PyDict.setitem d k v) k = d.
Proof.
  induction d as [|[k0 v0] d IH]; simpl; intros Hn.
  - now rewrite String.eqb_refl.
  - destruct (String.eqb k k0) eqn:E.
    + apply String.eqb_eq in E; subst; tauto.
    + simpl; rewrite E; f_equal; apply IH; tauto.
Qed.

Lemma delitem_not_in d k : ~ In k (PyDict.keys d) -> PyDict.delitem d k = d.
Proof.
  induction d as [|[k0 v0] d IH]; simpl; intros Hn; [reflexivity|].
  destruct (String.eqb k k0) eqn:E.
  - apply String.eqb_eq in E; subst; tauto.
  - f_equal; apply IH; tauto.
Qed.

Lemma mem_get d k : PyDict.mem k d = true -> exists v, PyDict.get d k = Some v.
Proof. unfold PyDict.mem; destruct (PyDict.get d k); [eauto|discriminate]. Qed.

Lemma mem_in d k : PyDict.mem k d = true <-> In k (PyDict.keys d).
Proof.
  split.
  - intros Hm. destruct (in_dec String.string_dec k (PyDict.keys d)) as [H|H]; [exact H|].
    apply get_not_in in H. unfold PyDict.mem in Hm; now rewrite H in Hm.
  - intros H. destruct (in_keys_get d k H) as [v Hv]. unfold PyDict.mem; now rewrite Hv.
Qed.

Lemma in_get d k v : NoDup (PyDict.keys d) -> In (k, v) d -> PyDict.get d k = Some v.
Proof.
  induction d as [|[k0 v0] d IH]; simpl; [tauto|]; intros Hnd Hin.
  inversion Hnd as [|? ? Hn Hnd']; subst.
  destruct Hin as [Heq|Hin].
  - injection Heq as -> ->. now rewrite String.eqb_refl.
  - destruct (String.eqb k k0) eqn:E.
    + apply String.eqb_eq in E; subst. exfalso; apply Hn.
      apply (in_map fst) in Hin; exact Hin.
    + now apply IH.
Qed.

Lemma in_values_get d v : In v (PyDict.values d) -> exists k, In (k, v) d.
Proof.
  unfold PyDict.values; intros H; apply in_map_iff in H.
  destruct H as [[k v'] [Hv Hin]]; simpl in Hv; subst; eauto.
Qed.

End Facts.
End DictMore.

Module RegistryMoreProps.

(** [discover_agents c] returns exactly the registered cards that list
    [c], in dict order. *)
Theorem discover_agents_exact (reg : AgentRegistry.t) (c : string) (card : AgentCard) :
  In card (AgentRegistry.discover_agents reg c)
  <-> In card (PyDict.values reg) /\ In c (capabilities card).
Proof.
  unfold AgentRegistry.discover_agents, list_in. rewrite filter_In, existsb_exists.
  split.
  - intros [Hin [x [Hx Heq]]]. apply String.eqb_eq in Heq; subst; auto.
  - intros [Hin Hc]. split; [exact Hin|]. exists c; split; [exact Hc|apply String.eqb_refl].
Qed.


End RegistryMoreProps.

Module ClientMoreProps.
Import PyDictFacts DictMore.

Lemma subscribe_result c id w :
  ClientMore.subscribe_to_status c id w
  = (mkWorld (clock w) (sent w) (printed w ++ [("Subscribed to status updates from " ++ id)%string])%list,
     inr (mkA2AClient (self_agent_id c) (registry c)
            (PyDict.setitem (status_listeners c) id true) (message_queue c))).
Proof. reflexivity. Qed.

(** Subscribing is idempotent on the listener set; unsubscribing a
    listener that was just subscribed (and was not before) gives back the
    listener set as it was; unsubscribing an absent id changes nothing. *)
Theorem subscribe_unsubscribe (c : A2AClient) (id : string) (w : World) :
  (forall w1 c1 w2 c2,
      ClientMore.subscribe_to_status c id w = (w1, inr c1) ->
      ClientMore.subscribe_to_status c1 id w1 = (w2, inr c2) ->
      status_listeners c2 = status_listeners c1)
  /\ (~ In id (PyDict.keys (status_listeners c)) ->
      forall w1 c1 w2 c2,
      ClientMore.subscribe_to_status c id w = (w1, inr c1) ->
      ClientMore.unsubscribe_from_status c1 id w1 = (w2, inr c2) ->
      status_listeners c2 = status_listeners c)
  /\ (PyDict.mem id (status_listeners c) = false ->
      ClientMore.unsubscribe_from_status c id w = (w, inr c)).
Proof.
  split; [|split].
  - intros w1 c1 w2 c2 H1 H2. rewrite subscribe_result in H1.
    injection H1 as <- <-. rewrite subscribe_result in H2. injection H2 as _ <-.
    simpl. apply setitem_setitem.
  - intros Hn w1 c1 w2 c2 H1 H2. rewrite subscribe_result in H1. injection H1 as <- <-.
    unfold ClientMore.unsubscribe_from_status in H2; simpl in H2.
    rewrite HistoryProps.mem_setitem_same in H2. unfold bind, print, ret in H2; simpl in H2.
    injection H2 as _ <-. simpl. now apply delitem_setitem_new.
  - intros Hm. unfold ClientMore.unsubscribe_from_status. now rewrite Hm.
Qed.

(** A new subscriber that the registry knows receives the next broadcast,
    after every earlier subscriber. *)
Theorem subscribe_then_broadcast (c : A2AClient) (id : string) (card : AgentCard)
    (msg : Envelope) (w : World)
    (Hnew : ~ In id (PyDict.keys (status_listeners c)))
    (Hcard : AgentRegistry.get_agent (registry c) id = Some card) :
  forall w1 c1, ClientMore.subscribe_to_status c id w = (w1, inr c1) ->
  broadcast_deliveries c1 msg = (broadcast_deliveries c msg ++ [(card, msg)])%list.
Proof.
  intros w1 c1 H1. rewrite subscribe_result in H1. injection H1 as _ <-.
  unfold broadcast_deliveries; simpl.
  rewrite keys_setitem_new by exact Hnew. rewrite flat_map_app; simpl.
  now rewrite Hcard.
Qed.

Section Direct.
Variable transport : AgentCard -> Envelope -> nat -> Exc + Response.

(** [send_direct_message] resolves the target like [delegate_task]: an
    unknown target raises the not-found [ValueError] with nothing sent; a
    known target gets exactly one [direct_message] delivery, whose answer is
    returned, or whose failure [e] is raised again as
    ["Failed to send message to <target>: <e>"]. *)
Theorem send_direct_message_outcomes (c : A2AClient) (target text : string) (w : World) :
  (AgentRegistry.get_agent (registry c) target = None ->
     ClientMore.send_direct_message transport c target text w
       = (w, inl (ValueError ("Agent " ++ target ++ " not found in registry"))))
  /\ (forall card,
        AgentRegistry.get_agent (registry c) target = Some card ->
        let env := ClientMore.direct_envelope c target text (clock w) in
        let w' := mkWorld (clock w) (sent w ++ [(card, env)])%list (printed w) in
        (forall resp, transport card env (clock w) = inr resp ->
           ClientMore.send_direct_message transport c target text w = (w', inr resp))
        /\ (forall e, transport card env (clock w) = inl e ->
           ClientMore.send_direct_message transport c target text w
             = (w', inl (Exception ("Failed to send message to " ++ target ++ ": "
                                    ++ str_exc e))))).
Proof.
  split.
  - intros Hg. unfold ClientMore.send_direct_message. now rewrite Hg.
  - intros card Hg. cbv zeta. unfold ClientMore.send_direct_message. rewrite Hg.
    unfold bind, now, try_except, send_message, raise; simpl.
    split; intros ? Ht; now rewrite Ht.
Qed.
End Direct.

(** [handle_incoming_message] dispatches on the message type: a
    [task_delegation] is queued and acknowledged [accepted]; a
    [direct_message] with text is queued and acknowledged [received]; a
    [status_update] with a status is acknowledged [received] without
    queueing; any other type is answered with an error entry naming it,
    without raising and with the client unchanged. *)
Theorem handle_incoming_dispatch (c : A2AClient) (msg : Envelope) (w : World) :
  (env_type msg = "task_delegation" ->
     ClientMore.handle_incoming_message c msg w
       = (w, inr (ClientMore.enqueue c msg,
                  [("status", "accepted"); ("message", "Task delegation received")])))
  /\ (forall s, env_type msg = "status_update" -> env_payload msg = PStatus s ->
      exists w', ClientMore.handle_incoming_message c msg w
                   = (w', inr (c, [("status", "received")])))
  /\ (forall s, env_type msg = "direct_message" -> env_payload msg = PText s ->
      exists w', ClientMore.handle_incoming_message c msg w
                   = (w', inr (ClientMore.enqueue c msg, [("status", "received")])))
  /\ (~ In (env_type msg) ["task_delegation"; "status_update"; "direct_message"] ->
      ClientMore.handle_incoming_message c msg w
        = (w, inr (c, [("error", "Unknown message type: " ++ env_type msg)]))).
Proof.
  unfold ClientMore.handle_incoming_message.
  split; [|split; [|split]].
  - intros Ht; rewrite Ht; reflexivity.
  - intros s Ht Hp; rewrite Ht; simpl. unfold ClientMore.handle_status_update.
    rewrite Hp. eexists; reflexivity.
  - intros s Ht Hp; rewrite Ht; simpl. unfold ClientMore.handle_direct_message.
    rewrite Hp. eexists; reflexivity.
  - intros Hn.
    destruct (String.eqb (env_type msg) "task_delegation") eqn:E1;
      [apply String.eqb_eq in E1; exfalso; apply Hn; simpl; auto|].
    destruct (String.eqb (env_type msg) "status_update") eqn:E2;
      [apply String.eqb_eq in E2; exfalso; apply Hn; simpl; auto|].
    destruct (String.eqb (env_type msg) "direct_message") eqn:E3;
      [apply String.eqb_eq in E3; exfalso; apply Hn; simpl; auto|].
    reflexivity.
Qed.

(** The inbox is FIFO: on an empty inbox [receive_messages] yields [None];
    two delegations handled in turn are received in the same order, and the
    inbox is then empty again. *)
Theorem inbox_fifo (c : A2AClient) (m1 m2 : Envelope) (w : World)
    (Hq : message_queue c = [])
    (H1 : env_type m1 = "task_delegation") (H2 : env_type m2 = "task_delegation") :
  ClientMore.receive_messages c w = (w, inr (c, None))
  /\ (a1 <- ClientMore.handle_incoming_message c m1 ;;
      a2 <- ClientMore.handle_incoming_message (fst a1) m2 ;;
      r1 <- ClientMore.receive_messages (fst a2) ;;
      r2 <- ClientMore.receive_messages (fst r1) ;;
      r3 <- ClientMore.receive_messages (fst r2) ;;
      ret (snd r1, snd r2, snd r3, message_queue (fst r3))) w
     = (w, inr (Some m1, Some m2, None, [])).
Proof.
  split; [unfold ClientMore.receive_messages; now rewrite Hq|].
  destruct (handle_incoming_dispatch c m1 w) as [Hd1 _].
  unfold bind at 1; rewrite (Hd1 H1); simpl.
  destruct (handle_incoming_dispatch (ClientMore.enqueue c m1) m2 w) as [Hd2 _].
  unfold bind at 1; rewrite (Hd2 H2); simpl.
  unfold ClientMore.receive_messages, ClientMore.enqueue, bind, ret; simpl.
  now rewrite Hq.
Qed.

End ClientMoreProps.

Module RouterMoreProps.
Import PyDictFacts DictMore RouterProps.

(** On a router whose handle ids are unique, unregistering is idempotent,
    and registering a new id then unregistering it gives back the router. *)
Theorem router_unregister_idempotent (r : AgentRouter) (id : string)
    (Hnd : NoDup (PyDict.keys (agents r))) :
  RouterMore.unregister_agent (RouterMore.unregister_agent r id) id
    = RouterMore.unregister_agent r id
  /\ (forall a, ~ In id (PyDict.keys (agents r)) ->
      RouterMore.unregister_agent (RouterMore.register_agent r id a) id = r).
Proof.
  split.
  - unfold RouterMore.unregister_agent.
    destruct (PyDict.mem id (agents r)) eqn:Hm; simpl.
    + unfold PyDict.mem. rewrite (get_delitem_same _ _ Hnd). reflexivity.
    + now rewrite Hm.
  - intros a Hn. unfold RouterMore.unregister_agent, RouterMore.register_agent; simpl.
    rewrite HistoryProps.mem_setitem_same. rewrite delitem_setitem_new by exact Hn.
    now destruct r.
Qed.

(** On a router whose rule keys are unique, after [remove_routing_rule ty]
    a task of type [ty] is selected as if no rule existed: first the local
    scan, then the directory fallback. *)
Theorem remove_rule_falls_back (r : AgentRouter) (ty : string) (req : list string)
    (Hnd : NoDup (PyDict.keys (routing_rules r))) :
  select_best_agent (RouterMore.remove_routing_rule r ty) ty req
  = match local_scan (agents r) req with
    | Some id => Some id
    | None => if nonempty req then external_scan (registry (a2a_client r)) req else None
    end.
Proof.
  unfold RouterMore.remove_routing_rule.
  destruct (PyDict.mem ty (routing_rules r)) eqn:Hm.
  - unfold select_best_agent; simpl. now rewrite (get_delitem_same _ _ Hnd).
  - unfold select_best_agent. apply mem_false_not_in, get_not_in in Hm. now rewrite Hm.
Qed.

Lemma rule_scan_sound ags ids req id :
  rule_scan ags ids req = Some id -> exists a, PyDict.get ags id = Some a.
Proof.
  induction ids as [|x ids IH]; simpl; [discriminate|].
  destruct (PyDict.get ags x) as [a|] eqn:Hg.
  - destruct (agent_has_capabilities a req); [intros H; injection H as <-; eauto|exact IH].
  - exact IH.
Qed.

Lemma local_scan_sound (items : PyDict.t LocalAgent) req id :
  local_scan items req = Some id ->
  exists a, In (id, a) items /\ agent_has_capabilities a req = true.
Proof.
  induction items as [|[k a] items IH]; simpl; [discriminate|].
  destruct (agent_has_capabilities a req) eqn:Hc.
  - intros H; injection H as <-; eauto.
  - intros H; destruct (IH H) as (b & Hb & Hc'); eauto.
Qed.

Lemma external_scan_sound reg caps id :
  external_scan reg caps = Some id ->
  exists card cap, In card (PyDict.values reg) /\ In cap caps
                   /\ In cap (capabilities card) /\ id = agent_id card.
Proof.
  intros H. apply external_scan_spec in H.
  destruct H as (pre & cap & post & card & rest & -> & _ & Hd & ->).
  assert (Hin : In card (AgentRegistry.discover_agents reg cap)) by (rewrite Hd; now left).
  apply RegistryMoreProps.discover_agents_exact in Hin. destruct Hin as [Hv Hc].
  exists card, cap. split; [exact Hv|split; [apply in_or_app; right; now left|auto]].
Qed.

(** Selection only ever returns a registered local handle, or the id of a
    registered directory card that advertises at least one of the required
    capabilities. *)
Theorem select_best_agent_sound (r : AgentRouter) (ty : string) (req : list string)
    (id : string) :
  select_best_agent r ty req = Some id ->
  (exists a, In (id, a) (agents r))
  \/ (exists card cap, In card (PyDict.values (registry (a2a_client r)))
                       /\ In cap req /\ In cap (capabilities card) /\ id = agent_id card).
Proof.
  unfold select_best_agent.
  destruct (match PyDict.get (routing_rules r) ty with
            | Some ids => rule_scan (agents r) ids req
            | None => None end) as [id'|] eqn:Hr.
  - intros H; injection H as <-. left.
    destruct (PyDict.get (routing_rules r) ty) as [ids|]; [|discriminate].
    destruct (rule_scan_sound _ _ _ _ Hr) as [a Ha]. exists a; now apply get_in.
  - destruct (local_scan (agents r) req) as [id'|] eqn:Hl.
    + intros H; injection H as <-. left.
      destruct (local_scan_sound _ _ _ Hl) as (a & Ha & _); eauto.
    + destruct (nonempty req); [|discriminate].
      intros H; right; now apply external_scan_sound.
Qed.

Section Outcomes.
Variable transport : AgentCard -> Envelope -> nat -> Exc + Response.

(** How [route_task] reports the work of the selected agent: a local
    handle's answer is wrapped as ["Task completed by <id>: ..."]; its
    exception [e] becomes ["Error executing task with agent <id>: <e>"]; a
    remote agent's delivery answer is wrapped as ["Task delegated to <id>:
    ..."], and a failed delivery becomes the error text around the
    ["Failed to delegate task to <id>: ..."] message. *)
Theorem route_task_outcomes (r : AgentRouter) (task : Task) (id : string) (w : World)
    (Hsel : select_best_agent r (task_type_of task) (required_capabilities_of task) = Some id)
    (Hid : id <> "") :
  (forall a w' res, PyDict.get (agents r) id = Some a -> process_task a task w = (w', res) ->
     route_task transport r task w
       = (w', inr (match res with
                   | inr s => "Task completed by " ++ id ++ ": " ++ s
                   | inl e => "Error executing task with agent " ++ id ++ ": " ++ str_exc e
                   end)))
  /\ (forall card, PyDict.get (agents r) id = None ->
      AgentRegistry.get_agent (registry (a2a_client r)) id = Some card ->
      let env := delegation_envelope (a2a_client r) id task (clock w) in
      let w' := mkWorld (clock w) (sent w ++ [(card, env)])%list (printed w) in
      route_task transport r task w
        = (w', inr (match transport card env (clock w) with
                    | inr resp => "Task delegated to " ++ id ++ ": " ++ show_response resp
                    | inl e => "Error executing task with agent " ++ id ++ ": "
                               ++ "Failed to delegate task to " ++ id ++ ": " ++ str_exc e
                    end))).
Proof.
  assert (Hf : falsy_opt_str (Some id) = false)
    by (simpl; apply String.eqb_neq; exact Hid).
  split.
  - intros a w' res Ha Hp. unfold route_task. rewrite Hsel, Hf.
    unfold try_except, execute_task_with_agent. rewrite Ha. unfold bind.
    rewrite Hp. destruct res; reflexivity.
  - intros card Ha Hg. cbv zeta. unfold route_task. rewrite Hsel, Hf.
    unfold try_except, execute_task_with_agent. rewrite Ha.
    unfold bind at 1, delegate_task. rewrite Hg.
    unfold bind, now, try_except, send_message, raise, ret; simpl.
    destruct (transport card _ (clock w)); reflexivity.
Qed.
End Outcomes.

End RouterMoreProps.

Module SessionMoreProps.
Import PyDictFacts DictMore HistoryProps.

Lemma get_py_update {V} (d patch : PyDict.t V) (k : string) :
  NoDup (PyDict.keys patch) ->
  PyDict.get (SessionMore.py_update d patch) k
  = match PyDict.get patch k with Some v => Some v | None => PyDict.get d k end.
Proof.
  revert d; induction patch as [|[k0 v0] patch IH]; intros d Hnd; [reflexivity|].
  inversion Hnd as [|? ? Hn Hnd']; subst.
  change (SessionMore.py_update d ((k0, v0) :: patch))
    with (SessionMore.py_update (PyDict.setitem d k0 v0) patch).
  rewrite (IH _ Hnd'). simpl.
  destruct (String.eqb k k0) eqn:E.
  - apply String.eqb_eq in E; subst. rewrite (get_not_in _ _ Hn).
    apply get_setitem_same.
  - destruct (PyDict.get patch k); [reflexivity|].
    apply get_setitem_other. intros ->. now rewrite String.eqb_refl in E.
Qed.

(** [update_conversation_context] merges the patch (a dict: unique keys)
    into the user's context key by key, the patch winning, and touches
    nothing else; for a user without a session it does nothing. *)
Theorem update_context_merges (cm : ConversationManager) (u : string)
    (patch : list (string * string)) (w : World)
    (Hnd : NoDup (PyDict.keys patch)) :
  (forall s, PyDict.get (conversation_state cm) u = Some s ->
     exists w' cm' s',
       SessionMore.update_conversation_context cm u patch w = (w', inr cm')
       /\ PyDict.get (conversation_state cm') u = Some s'
       /\ (forall k, PyDict.get (context s') k
                     = match PyDict.get patch k with
                       | Some v => Some v
                       | None => PyDict.get (context s) k
                       end)
       /\ preferences s' = preferences s
       /\ conversation_history cm' = conversation_history cm
       /\ active_sessions cm' = active_sessions cm)
  /\ (PyDict.get (conversation_state cm) u = None ->
      SessionMore.update_conversation_context cm u patch w = (w, inr cm)).
Proof.
  unfold SessionMore.update_conversation_context. split.
  - intros s Hs. rewrite Hs. unfold bind, print, ret; simpl.
    do 3 eexists. split; [reflexivity|]. simpl. rewrite get_setitem_same.
    split; [reflexivity|]. simpl. split; [|auto].
    intros k; now apply get_py_update.
  - intros Hs; now rewrite Hs.
Qed.

(** [set_user_preferences] replaces the user's preferences; an existing
    session keeps its context, start and last activity and the other maps;
    a user without a session first gets a fresh one (empty context, empty
    history, active). *)
Theorem set_preferences_effect (cm : ConversationManager) (u : string)
    (prefs : list (string * string)) (w : World) :
  exists w' cm' s',
    SessionMore.set_user_preferences cm u prefs w = (w', inr cm')
    /\ PyDict.get (conversation_state cm') u = Some s'
    /\ preferences s' = prefs
    /\ (forall s, PyDict.get (conversation_state cm) u = Some s ->
          context s' = context s /\ started_at s' = started_at s
          /\ last_activity s' = last_activity s
          /\ conversation_history cm' = conversation_history cm
          /\ active_sessions cm' = active_sessions cm)
    /\ (PyDict.get (conversation_state cm) u = None ->
          context s' = [] /\ PyDict.get (conversation_history cm') u = Some []
          /\ PyDict.get (active_sessions cm') u = Some true).
Proof.
  unfold SessionMore.set_user_preferences, PyDict.mem.
  destruct (PyDict.get (conversation_state cm) u) as [s|] eqn:Hs.
  - unfold bind at 1, ret at 1. rewrite Hs. unfold bind, print, ret; simpl.
    do 3 eexists. split; [reflexivity|]. simpl. rewrite get_setitem_same.
    split; [reflexivity|]. simpl. split; [reflexivity|]. split; [|discriminate].
    intros s0 Hs0. injection Hs0 as <-. auto.
  - unfold bind at 1, initialize_conversation, bind, now, print, ret; simpl.
    rewrite get_setitem_same. simpl.
    do 3 eexists. split; [reflexivity|]. simpl. rewrite get_setitem_same.
    split; [reflexivity|]. simpl. split; [reflexivity|]. split; [discriminate|].
    intros _. split; [reflexivity|]. split; apply get_setitem_same.
Qed.

Definition count_true (d : PyDict.t bool) : nat := length (filter (fun b => b) (PyDict.values d)).

Lemma count_true_setitem_false d k :
  count_true (PyDict.setitem d k false)
  + match PyDict.get d k with Some true => 1 | _ => 0 end = count_true d.
Proof.
  unfold count_true. induction d as [|[k0 v0] d IH]; simpl; [reflexivity|].
  destruct (String.eqb k k0); simpl.
  - destruct v0; simpl; lia.
  - destruct v0; simpl; lia.
Qed.

(** [end_conversation] marks a known user inactive, lowering the active
    count by one when the user was active, and never deletes state or
    history; for an unknown user it does nothing. *)
Theorem end_conversation_effect (cm : ConversationManager) (u : string) (w : World) :
  exists w' cm',
    SessionMore.end_conversation cm u w = (w', inr cm')
    /\ conversation_state cm' = conversation_state cm
    /\ conversation_history cm' = conversation_history cm
    /\ (PyDict.mem u (active_sessions cm) = true ->
          PyDict.get (active_sessions cm') u = Some false
          /\ SessionMore.active_conversations cm'
             + match PyDict.get (active_sessions cm) u with Some true => 1 | _ => 0 end
             = SessionMore.active_conversations cm)
    /\ (PyDict.mem u (active_sessions cm) = false -> cm' = cm).
Proof.
  unfold SessionMore.end_conversation.
  destruct (PyDict.mem u (active_sessions cm)) eqn:Hm.
  - unfold bind, print, ret; simpl. do 2 eexists.
    split; [reflexivity|]. simpl. split; [reflexivity|split; [reflexivity|]].
    split; [|discriminate]. intros _. split; [apply get_setitem_same|].
    apply count_true_setitem_false.
  - do 2 eexists. split; [reflexivity|].
    split; [reflexivity|split; [reflexivity|split; [discriminate|auto]]].
Qed.

(** The three session maps have unique keys. *)
Definition wf (cm : ConversationManager) : Prop :=
  NoDup (PyDict.keys (conversation_state cm))
  /\ NoDup (PyDict.keys (conversation_history cm))
  /\ NoDup (PyDict.keys (active_sessions cm)).

Definition gets (cm : ConversationManager) (u : string)
    : option ConvState * option (list Message) * option bool :=
  (PyDict.get (conversation_state cm) u, PyDict.get (conversation_history cm) u,
   PyDict.get (active_sessions cm) u).

Lemma del_if_mem_get {V} (d : PyDict.t V) u k :
  NoDup (PyDict.keys d) ->
  PyDict.get (if PyDict.mem u d then PyDict.delitem d u else d) k
  = if String.eqb k u then None else PyDict.get d k.
Proof.
  intros Hnd. destruct (String.eqb k u) eqn:E.
  - apply String.eqb_eq in E; subst. destruct (PyDict.mem u d) eqn:Hm.
    + now apply get_delitem_same.
    + now apply get_not_in, mem_false_not_in.
  - assert (k <> u) by (intros ->; now rewrite String.eqb_refl in E).
    destruct (PyDict.mem u d); [now apply get_delitem_other|reflexivity].
Qed.

Lemma del_if_mem_nodup {V} (d : PyDict.t V) u :
  NoDup (PyDict.keys d) -> NoDup (PyDict.keys (if PyDict.mem u d then PyDict.delitem d u else d)).
Proof. intros H; destruct (PyDict.mem u d); [now apply delitem_nodup|exact H]. Qed.

Lemma cleanup_users_spec (users : list string) :
  forall cm w, wf cm ->
  exists w' cm', SessionMore.cleanup_users cm users w = (w', inr cm') /\ wf cm'
    /\ forall k, gets cm' k = if existsb (String.eqb k) users then (None, None, None)
                              else gets cm k.
Proof.
  induction users as [|u us IH]; intros cm w (H1 & H2 & H3); simpl.
  - exists w, cm. split; [reflexivity|]. split; [now split|]. reflexivity.
  - unfold bind, print; simpl.
    set (cm1 := SessionMore.cleanup_user_data cm u).
    assert (Hwf1 : wf cm1) by
      (unfold wf, cm1, SessionMore.cleanup_user_data; simpl;
       split; [|split]; now apply del_if_mem_nodup).
    destruct (IH cm1 (mkWorld (clock w) (sent w)
                        (printed w ++ [("Cleaned up inactive conversation for user: " ++ u)%string])%list)
                 Hwf1) as (w' & cm' & Hrun & Hwf' & Hg).
    exists w', cm'. split; [exact Hrun|split; [exact Hwf'|]].
    intros k. rewrite Hg. destruct (existsb (String.eqb k) us) eqn:Hk; [now rewrite orb_true_r|].
    rewrite orb_false_r. unfold gets, cm1, SessionMore.cleanup_user_data; simpl.
    rewrite !del_if_mem_get by assumption. now destruct (String.eqb k u).
Qed.

(** [cleanup_inactive_conversations hours] removes every user whose last
    activity is before [now - hours*3600] from all three session maps (its
    history reads as empty afterwards) and leaves every other user's
    session, history and active flag as they were. *)
Theorem cleanup_inactive_effect (cm : ConversationManager) (hours : Z) (w : World)
    (Hwf : wf cm) :
  let cutoff := (Z.of_nat (clock w) - hours * 3600)%Z in
  exists w' cm',
    SessionMore.cleanup_inactive_conversations cm hours w = (w', inr cm')
    /\ wf cm'
    /\ forall u,
       ((exists s, PyDict.get (conversation_state cm) u = Some s
                   /\ (Z.of_nat (last_activity s) < cutoff)%Z) ->
          gets cm' u = (None, None, None)
          /\ get_conversation_history cm' u None = [])
       /\ ((~ exists s, PyDict.get (conversation_state cm) u = Some s
                        /\ (Z.of_nat (last_activity s) < cutoff)%Z) ->
          gets cm' u = gets cm u).
Proof.
  intros cutoff. unfold SessionMore.cleanup_inactive_conversations, bind at 1, now.
  cbv beta iota.
  set (users := map fst (filter (fun us => (Z.of_nat (last_activity (snd us)) <? Z.of_nat (clock w) - hours * 3600)%Z)
                                (conversation_state cm))).
  destruct (cleanup_users_spec users cm w Hwf) as (w' & cm' & Hrun & Hwf' & Hg).
  exists w', cm'. split; [exact Hrun|split; [exact Hwf'|]].
  assert (Hin : forall u, existsb (String.eqb u) users = true <->
                exists s, PyDict.get (conversation_state cm) u = Some s
                          /\ (Z.of_nat (last_activity s) < cutoff)%Z).
  { intros u. rewrite existsb_exists. unfold users. split.
    - intros (x & Hx & Hux). apply String.eqb_eq in Hux; subst x.
      apply in_map_iff in Hx. destruct Hx as ([u' s] & Hu & Hf). simpl in Hu; subst u'.
      apply filter_In in Hf. destruct Hf as [Hf Hlt]. simpl in Hlt.
      exists s. split; [apply in_get; [apply Hwf|exact Hf]|]. now apply Z.ltb_lt in Hlt.
    - intros (s & Hs & Hlt). exists u. split; [|apply String.eqb_refl].
      apply in_map_iff. exists (u, s). split; [reflexivity|].
      apply filter_In. split; [now apply RouterProps.get_in|]. simpl.
      now apply Z.ltb_lt. }
  intros u. split.
  - intros Hex. apply Hin in Hex. rewrite Hg, Hex. split; [reflexivity|].
    specialize (Hg u). rewrite Hex in Hg. unfold gets in Hg. injection Hg as _ Hh _.
    unfold get_conversation_history. now rewrite Hh.
  - intros Hnex. rewrite Hg. destruct (existsb (String.eqb u) users) eqn:Hu; [|reflexivity].
    exfalso; apply Hnex, Hin, Hu.
Qed.

Lemma total_setitem (d : PyDict.t (list Message)) k v :
  SessionMore.total_messages (mkConversationManager [] (PyDict.setitem d k v) [])
  + length (match PyDict.get d k with Some h => h | None => [] end)
  = SessionMore.total_messages (mkConversationManager [] d []) + length v.
Proof.
  unfold SessionMore.total_messages; simpl.
  induction d as [|[k0 v0] d IH]; simpl.
  - lia.
  - destruct (String.eqb k k0); simpl; lia.
Qed.

Lemma total_messages_hist cm :
  SessionMore.total_messages cm
  = SessionMore.total_messages (mkConversationManager [] (conversation_history cm) []).
Proof. reflexivity. Qed.

Lemma log_message_total cm u ro co w :
  exists cm', log_message cm u ro co w = (w, inr cm')
    /\ SessionMore.total_messages cm' = S (SessionMore.total_messages cm)
    /\ PyDict.mem u (conversation_state cm') = PyDict.mem u (conversation_state cm).
Proof.
  destruct (log_message_spec cm u ro co w) as (cm' & Hrun & _ & Hm).
  exists cm'. split; [exact Hrun|split; [|exact Hm]].
  unfold log_message, bind, now, ret in Hrun; simpl in Hrun. injection Hrun as <-.
  rewrite (total_messages_hist cm). simpl.
  pose proof (total_setitem (conversation_history cm) u
               ((match PyDict.get (conversation_history cm) u with Some h => h | None => [] end)
                ++ [mkMessage ro co (clock w)])%list) as H.
  rewrite length_app in H. simpl in H.
  unfold SessionMore.total_messages in *; simpl in *. lia.
Qed.

(** Each [process_user_input] turn of a user with a session (or with no
    history at all) adds exactly two entries to the message count of
    [get_system_stats]. *)
Theorem process_adds_two_messages
    (transport : AgentCard -> Envelope -> nat -> Exc + Response)
    (r : AgentRouter) (cm : ConversationManager) (u m : string) (w : World)
    (Hu : PyDict.mem u (conversation_state cm) = true
          \/ PyDict.get (conversation_history cm) u = None) :
  match process_user_input (route_task transport r) cm u m w with
  | (_, inr (cm', _)) =>
      SessionMore.total_messages cm' = SessionMore.total_messages cm + 2
  | _ => False
  end.
Proof.
  unfold process_user_input, bind at 1.
  assert (Hinit : exists w0 cm0,
            (if PyDict.mem u (conversation_state cm) then ret cm
             else initialize_conversation cm u) w = (w0, inr cm0)
            /\ SessionMore.total_messages cm0 = SessionMore.total_messages cm).
  { destruct (PyDict.mem u (conversation_state cm)) eqn:Hm.
    - exists w, cm; auto.
    - destruct Hu as [Hu|Hu]; [discriminate|].
      unfold initialize_conversation, bind, now, print, ret; simpl.
      eexists; eexists; split; [reflexivity|].
      pose proof (total_setitem (conversation_history cm) u []) as H.
      rewrite Hu in H. rewrite (total_messages_hist cm).
      unfold SessionMore.total_messages in *; simpl in *. lia. }
  destruct Hinit as (w0 & cm0 & -> & Ht0).
  unfold bind at 1.
  destruct (log_message_total cm0 u "user" m w0) as (cm1 & -> & Ht1 & _).
  unfold bind at 1. rewrite ClassifyProps.analyze_user_message_result.
  unfold bind at 1.
  match goal with |- context [route_task transport r ?t w0] =>
    destruct (route_task_total transport r t w0) as (w2 & resp & ->) end.
  unfold bind.
  destruct (log_message_total cm1 u "assistant" resp w2) as (cm2 & -> & Ht2 & _).
  unfold ret; simpl. lia.
Qed.

(** The task built right after the user turn is logged carries the last
    [min 5 (n+1)] history entries, ending with that user turn. *)
Theorem task_history_window (cm : ConversationManager) (u m : string) (w : World) :
  exists cm1 t,
    log_message cm u "user" m w = (w, inr cm1)
    /\ analyze_user_message cm1 u m w = (w, inr t)
    /\ (exists pre, (hist_of cm u ++ [mkMessage "user" m (clock w)])%list
                    = (pre ++ task_conversation_history t)%list)
    /\ length (task_conversation_history t) = Nat.min 5 (S (length (hist_of cm u)))
    /\ last (task_conversation_history t) (mkMessage "" "" 0) = mkMessage "user" m (clock w).
Proof.
  destruct (log_message_spec cm u "user" m w) as (cm1 & Hrun & Hh & _).
  exists cm1. eexists. split; [exact Hrun|].
  split; [apply ClassifyProps.analyze_user_message_result|].
  cbn [task_conversation_history].
  change (match PyDict.get (conversation_history cm1) u with Some h => h | None => [] end)
    with (hist_of cm1 u).
  rewrite Hh. change (-5)%Z with (Z.opp 5).
  rewrite py_slice_from_neg by lia. simpl Z.to_nat.
  set (l := hist_of cm u). set (x := mkMessage "user" m (clock w)).
  split; [exists (firstn (length (l ++ [x]) - 5) (l ++ [x])); symmetry; apply firstn_skipn|].
  rewrite length_skipn, length_app. cbn [length]. split; [lia|].
  rewrite skipn_app.
  match goal with |- context [skipn ?n [x]] => replace n with 0 by (simpl; lia) end.
  apply last_last.
Qed.

(** A negative limit [-k] does not give the last entries: Python's slice
    [history[k:]] drops the first [k] entries instead. *)
Theorem history_negative_limit (cm : ConversationManager) (u : string) (h : list Message)
    (k : Z) (Hh : PyDict.get (conversation_history cm) u = Some h) (Hk : (0 < k)%Z) :
  get_conversation_history cm u (Some (- k)%Z) = skipn (Z.to_nat k) h.
Proof.
  unfold get_conversation_history, py_slice_from. rewrite Hh.
  replace (- k =? 0)%Z with false by (symmetry; apply Z.eqb_neq; lia).
  replace (- - k <? 0)%Z with false by (symmetry; apply Z.ltb_ge; lia).
  rewrite Z.opp_involutive.
  destruct (Nat.le_gt_cases (Z.to_nat k) (length h)) as [Hle|Hgt].
  - f_equal. lia.
  - rewrite !skipn_all2; [reflexivity|lia|lia].
Qed.

End SessionMoreProps.

(** ** Concrete instances of the further properties *)

Module MoreWitnesses.

Definition client_m : A2AClient := client_of [("m", card_of "m" [])] [].
Definition status_m : Envelope := status_envelope client_m [("status", "idle")] 100.

Lemma subscribe_then_broadcast_witness :
  broadcast_deliveries
    (mkA2AClient "orchestrator" [("m", card_of "m" [])] [("m", true)] []) status_m
  = [(card_of "m" [], status_m)].
Proof.
  exact (ClientMoreProps.subscribe_then_broadcast client_m "m" (card_of "m" []) status_m
           world0 ltac:(simpl; tauto) eq_refl _ _ eq_refl).
Defined.

Definition delegation_1 : Envelope :=
  delegation_envelope (client_of [] []) "orchestrator" (task_of "research" []) 1.
Definition delegation_2 : Envelope :=
  delegation_envelope (client_of [] []) "orchestrator" (task_of "coding" []) 2.

Lemma inbox_fifo_witness :
  ClientMore.receive_messages (client_of [] []) world0
  = (world0, inr (client_of [] [], None)).
Proof.
  exact (proj1 (ClientMoreProps.inbox_fifo (client_of [] []) delegation_1 delegation_2
                  world0 eq_refl eq_refl eq_refl)).
Defined.

Lemma router_unregister_idempotent_witness :
  RouterMore.unregister_agent (RouterMore.unregister_agent router_rule "local") "local"
  = RouterMore.unregister_agent router_rule "local".
Proof.
  exact (proj1 (RouterMoreProps.router_unregister_idempotent router_rule "local"
                  ltac:(repeat constructor; simpl; tauto))).
Defined.

Lemma remove_rule_falls_back_witness :
  select_best_agent (RouterMore.remove_routing_rule router_rule "research") "research"
    ["web_search"] = Some "local".
Proof.
  exact (RouterMoreProps.remove_rule_falls_back router_rule "research" ["web_search"]
           ltac:(repeat constructor; simpl; tauto)).
Defined.

Lemma select_best_agent_sound_witness :
  exists card cap, In card (PyDict.values (registry (a2a_client router_remote_only)))
                   /\ In cap ["web_search"] /\ In cap (capabilities card)
                   /\ "remote" = agent_id card.
Proof.
  destruct (RouterMoreProps.select_best_agent_sound router_remote_only "research"
              ["web_search"] "remote" eq_refl) as [[a []]|H]; exact H.
Defined.

Lemma route_task_outcomes_witness :
  route_task transport_sim router_rule (task_of "research" ["web_search"]) world0
  = (world0, inr "Task completed by local: done").
Proof.
  exact (proj1 (RouterMoreProps.route_task_outcomes transport_sim router_rule
                  (task_of "research" ["web_search"]) "local" world0 eq_refl
                  ltac:(discriminate))
           (RouteProps.echo_agent ["web_search"]) world0 (inr "done") eq_refl eq_refl).
Defined.

Definition manager_u (activity : nat) : ConversationManager :=
  mkConversationManager [("u", mkConvState 0 [("topic", "x")] [] activity)]
    [("u", [mkMessage "user" "hi" activity])] [("u", true)].

Lemma update_context_merges_witness :
  SessionMore.update_conversation_context (manager_u 0) "v" [("topic", "y")] world0
  = (world0, inr (manager_u 0)).
Proof.
  exact (proj2 (SessionMoreProps.update_context_merges (manager_u 0) "v" [("topic", "y")]
                  world0 ltac:(repeat constructor; simpl; tauto)) eq_refl).
Defined.

Definition world_late : World := mkWorld 4000 [] [].

Lemma cleanup_inactive_effect_witness :
  exists w' cm', SessionMore.cleanup_inactive_conversations (manager_u 0) 1 world_late
                 = (w', inr cm')
                 /\ SessionMoreProps.gets cm' "u" = (None, None, None).
Proof.
  assert (Hwf : SessionMoreProps.wf (manager_u 0))
    by (repeat split; repeat constructor; simpl; tauto).
  destruct (SessionMoreProps.cleanup_inactive_effect (manager_u 0) 1 world_late Hwf)
    as (w' & cm' & Hrun & _ & Hu).
  exists w', cm'. split; [exact Hrun|].
  apply (proj1 (Hu "u")). exists (mkConvState 0 [("topic", "x")] [] 0).
  split; [reflexivity|]. vm_compute. reflexivity.
Defined.

Lemma process_adds_two_messages_witness :
  match process_user_input (route_task transport_sim router_empty) empty_manager "u" "hi"
          world0 with
  | (_, inr (cm', _)) =>
      SessionMore.total_messages cm' = SessionMore.total_messages empty_manager + 2
  | _ => False
  end.
Proof.
  exact (SessionMoreProps.process_adds_two_messages transport_sim router_empty
           empty_manager "u" "hi" world0 (or_intror eq_refl)).
Defined.

Lemma history_negative_limit_witness :
  get_conversation_history manager_3 "u" (Some (-1)%Z)
  = [mkMessage "assistant" "hello" 1; mkMessage "user" "bye" 2].
Proof.
  exact (SessionMoreProps.history_negative_limit manager_3 "u" _ 1 eq_refl
           ltac:(lia)).
Defined.

End MoreWitnesses.
